(** * atomic_yaml_to_md: the YAML-to-Markdown converter for atomic tests

    A shallow embedding of [atomic_yaml_to_md.py] and the properties of
    its anchor slugger, escapers, formatters, renderer and entry point.

    Text is modelled by the Standard Library's [string], read as ASCII
    text, the range the slugger's own docstring addresses.  The character
    classes below are Python's [str.isspace], the regular-expression
    classes [\w] and [\s], and [str.lower] / [str.upper], restricted to
    code points below 128; a byte above 127 stands for no Python
    character in particular and is treated as an ordinary symbol. *)

From Stdlib Require Import Bool Arith NArith ZArith List Ascii String Lia.
From Stdlib Require Import DecimalString.
From Stdlib Require DecimalFacts DecimalNat.
Import ListNotations.

Local Open Scope list_scope.
Local Open Scope string_scope.

(** ** Characters *)

Module Char.

Definition code (c : ascii) : N := N_of_ascii c.

Definition between (lo hi : N) (c : ascii) : bool :=
  (lo <=? code c)%N && (code c <=? hi)%N.

(** [str.isspace] on ASCII: TAB, LF, VT, FF, CR, the four separators
    FS, GS, RS, US, and the space.  The [\s] class of [re] on [str]
    patterns is the same set. *)
Definition is_space (c : ascii) : bool :=
  between 9 13 c || between 28 32 c.

Definition is_digit (c : ascii) : bool := between 48 57 c.
Definition is_upper (c : ascii) : bool := between 65 90 c.
Definition is_lower (c : ascii) : bool := between 97 122 c.

(** The [\w] class: alphanumerics and the underscore. *)
Definition is_word (c : ascii) : bool :=
  is_digit c || is_upper c || is_lower c || (c =? "_")%char.

Definition lower (c : ascii) : ascii :=
  if is_upper c then ascii_of_N (code c + 32) else c.

Definition upper (c : ascii) : ascii :=
  if is_lower c then ascii_of_N (code c - 32) else c.

Definition hyphen : ascii := "-"%char.
Definition dot : ascii := "."%char.
Definition newline : ascii := "010"%char.
Definition dquote : ascii := "034"%char.
Definition squote : ascii := "039"%char.
Definition backslash : ascii := "\"%char.

End Char.

(** ** String primitives of the Python runtime *)

Module Str.

Definition is_empty (s : string) : bool :=
  match s with EmptyString => true | String _ _ => false end.

Fixpoint map (f : ascii -> ascii) (s : string) : string :=
  match s with
  | EmptyString => EmptyString
  | String c s' => String (f c) (map f s')
  end.

Fixpoint filter (keep : ascii -> bool) (s : string) : string :=
  match s with
  | EmptyString => EmptyString
  | String c s' => if keep c then String c (filter keep s') else filter keep s'
  end.

Fixpoint all (p : ascii -> bool) (s : string) : bool :=
  match s with
  | EmptyString => true
  | String c s' => p c && all p s'
  end.

(** [s.lower()] and [s.upper()]. *)
Definition lower : string -> string := map Char.lower.
Definition upper : string -> string := map Char.upper.

(** [s.lstrip()], [s.rstrip()], [s.strip()]. *)
Fixpoint lstrip (s : string) : string :=
  match s with
  | EmptyString => EmptyString
  | String c s' => if Char.is_space c then lstrip s' else s
  end.

Fixpoint rstrip (s : string) : string :=
  match s with
  | EmptyString => EmptyString
  | String c s' =>
      match rstrip s' with
      | EmptyString => if Char.is_space c then EmptyString else String c EmptyString
      | r => String c r
      end
  end.

Definition strip (s : string) : string := rstrip (lstrip s).

(** [s.replace(old, new)] for a one-character [old]. *)
Fixpoint replace_char (old : ascii) (new : string) (s : string) : string :=
  match s with
  | EmptyString => EmptyString
  | String c s' =>
      if (c =? old)%char then new ++ replace_char old new s'
      else String c (replace_char old new s')
  end.

(** [re.sub(cls+, rep, s)] for a character class [cls]: every maximal
    run of characters of the class is replaced by one [rep]. *)
Fixpoint sub_runs (cls : ascii -> bool) (rep : string) (s : string) : string :=
  match s with
  | EmptyString => EmptyString
  | String c s' =>
      if cls c then
        match s' with
        | EmptyString => rep
        | String c' _ => if cls c' then sub_runs cls rep s' else rep ++ sub_runs cls rep s'
        end
      else String c (sub_runs cls rep s')
  end.

(** [sep.join(parts)]. *)
Fixpoint join (sep : string) (parts : list string) : string :=
  match parts with
  | [] => EmptyString
  | [p] => p
  | p :: rest => p ++ sep ++ join sep rest
  end.

Definition of_char (c : ascii) : string := String c EmptyString.

(** [s[:1]] and [s[1:]]. *)
Definition first1 (s : string) : string :=
  match s with EmptyString => EmptyString | String c _ => of_char c end.
Definition from1 (s : string) : string :=
  match s with EmptyString => EmptyString | String _ s' => s' end.

Fixpoint chars (s : string) : list ascii :=
  match s with
  | EmptyString => []
  | String c s' => c :: chars s'
  end.

Fixpoint mem (c : ascii) (s : string) : bool :=
  match s with
  | EmptyString => false
  | String c' s' => (c =? c')%char || mem c s'
  end.

(** No two neighbouring characters are both in the class. *)
Fixpoint no_adjacent (cls : ascii -> bool) (s : string) : bool :=
  match s with
  | EmptyString => true
  | String c s' =>
      (negb (cls c) || match s' with
                       | EmptyString => true
                       | String c' _ => negb (cls c')
                       end)
      && no_adjacent cls s'
  end.

End Str.

(** ** The anchor slugger *)

(** The class kept by [re.sub(r"[^\w\s-]", "", s)]. *)
Definition anchor_char (c : ascii) : bool :=
  Char.is_word c || Char.is_space c || (c =? Char.hyphen)%char.

Definition is_hyphen (c : ascii) : bool := (c =? Char.hyphen)%char.

Definition slugify_github_anchor (s : string) : string :=
  let s := Str.lower (Str.strip s) in
  let s := Str.filter anchor_char s in
  let s := Str.replace_char Char.dot "" s in
  let s := Str.sub_runs Char.is_space "-" s in
  let s := Str.sub_runs is_hyphen "-" s in
  s.

(** The slugger with the [s.replace(".", "")] line deleted. *)
Definition slugify_without_dot_step (s : string) : string :=
  let s := Str.lower (Str.strip s) in
  let s := Str.filter anchor_char s in
  let s := Str.sub_runs Char.is_space "-" s in
  let s := Str.sub_runs is_hyphen "-" s in
  s.

(** ** Loaded documents

    What [yaml.safe_load] returns: scalars, sequences, and mappings whose
    keys are scalars (a mapping key has to be hashable) and which keep
    their insertion order.  Binary values and sets are not modelled. *)

Inductive scalar : Type :=
| SNone
| SBool (b : bool)
| SInt (z : Z)
| SStr (s : string)
  (** any other scalar of the loader (a float, a date, a timestamp), kept
      as its truth value and the texts [str] and [repr] give for it *)
| SOther (truthy : bool) (str_text repr_text : string).

#[warnings="-register-all"]
Inductive value : Type :=
| VScalar (a : scalar)
| VList (l : list value)
| VDict (d : list (scalar * value)).

Coercion VScalar : scalar >-> value.

Definition pydict : Type := list (scalar * value).

Definition VNone : value := VScalar SNone.
Definition VStr (s : string) : value := VScalar (SStr s).

(** *** Exceptions *)

Inductive exn : Type :=
| AttributeError
| TypeError
| FileNotFoundError
| YAMLError
| SystemExit (msg : string).

Inductive result (A : Type) : Type :=
| Ok (a : A)
| Err (e : exn).

Arguments Ok {A} a.
Arguments Err {A} e.

Definition bind {A B : Type} (m : result A) (k : A -> result B) : result B :=
  match m with
  | Ok a => k a
  | Err e => Err e
  end.

Notation "x <- m ;; k" := (bind m (fun x => k))
  (at level 61, m at next level, right associativity).

Fixpoint mapM {A B : Type} (f : A -> result B) (l : list A) : result (list B) :=
  match l with
  | [] => Ok []
  | a :: l' => b <- f a ;; bs <- mapM f l' ;; Ok (b :: bs)
  end.

Definition is_ok {A : Type} (m : result A) : bool :=
  match m with Ok _ => true | Err _ => false end.

(** *** Built-ins on loaded values *)

Module Py.

Definition dec_nat (n : nat) : string := NilEmpty.string_of_uint (Nat.to_uint n).
Definition dec_Z (z : Z) : string := NilZero.string_of_int (Z.to_int z).

Definition hex_digit (n : N) : ascii :=
  if (n <? 10)%N then ascii_of_N (48 + n) else ascii_of_N (87 + n).

(** One character of [repr] of a [str] delimited by [quote]. *)
Definition repr_char (quote c : ascii) : string :=
  if (c =? quote)%char || (c =? Char.backslash)%char
  then String Char.backslash (Str.of_char c)
  else if (c =? "009")%char then "\t"
  else if (c =? "010")%char then "\n"
  else if (c =? "013")%char then "\r"
  else if (Char.code c <? 32)%N || (c =? "127")%char
  then String Char.backslash
         (String "x" (String (hex_digit (Char.code c / 16))
                        (Str.of_char (hex_digit (Char.code c mod 16)))))
  else Str.of_char c.

Definition repr_str (s : string) : string :=
  let quote :=
    if Str.mem Char.squote s && negb (Str.mem Char.dquote s)
    then Char.dquote else Char.squote in
  String quote (concat "" (List.map (repr_char quote) (Str.chars s)))
    ++ Str.of_char quote.

Definition str_scalar (a : scalar) : string :=
  match a with
  | SNone => "None"
  | SBool true => "True"
  | SBool false => "False"
  | SInt z => dec_Z z
  | SStr s => s
  | SOther _ t _ => t
  end.

Definition repr_scalar (a : scalar) : string :=
  match a with
  | SStr s => repr_str s
  | SOther _ _ r => r
  | _ => str_scalar a
  end.

Fixpoint repr (v : value) : string :=
  match v with
  | VScalar a => repr_scalar a
  | VList l => "[" ++ Str.join ", " (List.map repr l) ++ "]"
  | VDict d =>
      "{" ++ Str.join ", "
               (List.map (fun kv => repr_scalar (fst kv) ++ ": " ++ repr (snd kv)) d)
          ++ "}"
  end.

(** [str(v)], on the values it renders (see [printable] below: Python
    raises on an integer of more than 4300 digits). *)
Definition str (v : value) : string :=
  match v with
  | VScalar a => str_scalar a
  | _ => repr v
  end.

(** Truth value of [v] in a condition and in [v or d]. *)
Definition truthy (v : value) : bool :=
  match v with
  | VScalar SNone => false
  | VScalar (SBool b) => b
  | VScalar (SInt z) => negb (z =? 0)%Z
  | VScalar (SStr s) => negb (Str.is_empty s)
  | VScalar (SOther t _ _) => t
  | VList l => match l with [] => false | _ => true end
  | VDict d => match d with [] => false | _ => true end
  end.

Definition or (v d : value) : value := if truthy v then v else d.

Definition is_dict (v : value) : bool :=
  match v with VDict _ => true | _ => false end.

Definition key_is (k : string) (a : scalar) : bool :=
  match a with SStr s => (s =? k)%string | _ => false end.

(** The entry of the string key [k].  The keys of a loaded mapping are
    distinct, so at most one entry qualifies. *)
Fixpoint lookup (d : pydict) (k : string) : option value :=
  match d with
  | [] => None
  | (a, v) :: d' => if key_is k a then Some v else lookup d' k
  end.

(** [d.get(k, default)] and [d.get(k)] on a mapping. *)
Definition get_default (d : pydict) (k : string) (default : value) : value :=
  match lookup d k with Some v => v | None => default end.

Definition get (d : pydict) (k : string) : value := get_default d k VNone.

(** The receiver of a [.get] call has to be a mapping. *)
Definition as_dict (v : value) : result pydict :=
  match v with
  | VDict d => Ok d
  | _ => Err AttributeError
  end.

(** The receiver of a [.strip] call has to be a string. *)
Definition as_str (v : value) : result string :=
  match v with
  | VScalar (SStr s) => Ok s
  | _ => Err AttributeError
  end.

(** The items a [for] loop draws from [v]. *)
Definition iter (v : value) : result (list value) :=
  match v with
  | VList l => Ok l
  | VScalar (SStr s) => Ok (List.map (fun c => VStr (Str.of_char c)) (Str.chars s))
  | VDict d => Ok (List.map (fun kv => VScalar (fst kv)) d)
  | VScalar _ => Err TypeError
  end.

End Py.

(** ** Field escapers *)

Definition md_escape_inline (s : value) : string :=
  match s with
  | VScalar SNone => ""
  | _ => Str.strip (Py.str s)
  end.

(** [html.escape(s)] of the Python library, with its default [quote=True]:
    five replacements, the ampersand first. *)
Definition html_escape (s : string) : string :=
  let s := Str.replace_char "&" "&amp;" s in
  let s := Str.replace_char "<" "&lt;" s in
  let s := Str.replace_char ">" "&gt;" s in
  let s := Str.replace_char Char.dquote "&quot;" s in
  let s := Str.replace_char Char.squote "&#x27;" s in
  s.

Definition md_escape_table (s : value) : string :=
  match s with
  | VScalar SNone => ""
  | _ => Str.replace_char Char.backslash "&#92;" (html_escape (Str.strip (Py.str s)))
  end.

(** The table-cell policy as the specification words it, one character
    at a time: each of the six special characters becomes its entity and
    every other character stays. *)
Definition cell_entity (c : ascii) : string :=
  if (c =? "&")%char then "&amp;"
  else if (c =? "<")%char then "&lt;"
  else if (c =? ">")%char then "&gt;"
  else if (c =? Char.dquote)%char then "&quot;"
  else if (c =? Char.squote)%char then "&#x27;"
  else if (c =? Char.backslash)%char then "&#92;"
  else Str.of_char c.

Fixpoint cell_encode (s : string) : string :=
  match s with
  | EmptyString => EmptyString
  | String c s' => cell_entity c ++ cell_encode s'
  end.

(** ** Field formatters *)

Definition str_in (s : string) (l : list string) : bool :=
  existsb (String.eqb s) l.

(** [executor_name] is a [str] at every call, so [executor_name or ""] is
    [executor_name]. *)
Definition code_fence_lang (executor_name : string) : string :=
  let name := Str.lower (Str.strip executor_name) in
  if str_in name ["command_prompt"; "cmd"] then "cmd"
  else if str_in name ["powershell"; "pwsh"] then "powershell"
  else if str_in name ["bash"] then "bash"
  else if str_in name ["sh"] then "sh"
  else "text".

Definition titlecase (p : string) : string :=
  let p := Str.strip p in
  if (Str.lower p =? "macos")%string then "macOS"
  else Str.upper (Str.first1 p) ++ Str.from1 p.

Definition fmt_supported_platforms (platforms : list string) : string :=
  match platforms with
  | [] => ""
  | _ => Str.join ", " (List.map titlecase platforms)
  end.

(** The platform formatter as the specification words it: no trimming,
    the first letter capitalised and the rest kept, [macos] in any case
    written [macOS]. *)
Definition spec_title (p : string) : string :=
  if (Str.lower p =? "macos")%string then "macOS"
  else Str.upper (Str.first1 p) ++ Str.from1 p.

Definition spec_format_platforms (tags : list string) : string :=
  match tags with
  | [] => ""
  | _ => Str.join ", " (List.map spec_title tags)
  end.

(** ** The document renderer *)

(** [for idx, t in enumerate(items, start=idx): lines += body idx t] *)
Fixpoint for_enumerate (body : nat -> value -> result (list string))
    (idx : nat) (items : list value) : result (list string) :=
  match items with
  | [] => Ok []
  | t :: rest =>
      ls <- body idx t ;;
      more <- for_enumerate body (S idx) rest ;;
      Ok (ls ++ more)%list
  end.

Definition default_name (idx : nat) : string := "Atomic Test #" ++ Py.dec_nat idx.

(** [md_escape_inline(t.get("name", f"Atomic Test #{idx}"))] *)
Definition record_name (idx : nat) (t : pydict) : string :=
  md_escape_inline (Py.get_default t "name" (VStr (default_name idx))).

(** [f"Atomic Test #{idx} - {name}"] *)
Definition record_heading (idx : nat) (t : pydict) : string :=
  "Atomic Test #" ++ Py.dec_nat idx ++ " - " ++ record_name idx t.

(** Body of the table-of-contents loop. *)
Definition toc_entry (idx : nat) (t : value) : result (list string) :=
  t <- Py.as_dict t ;;
  let name := record_name idx t in
  let heading := "Atomic Test #" ++ Py.dec_nat idx ++ " - " ++ name in
  let anchor := slugify_github_anchor heading in
  Ok ["- [Atomic Test #" ++ Py.dec_nat idx ++ " - " ++ name ++ "](#" ++ anchor ++ ")"; ""].

(** The argument of [fmt_supported_platforms] as the list of strings its
    loop draws, each of them the receiver of [.strip]. *)
Definition platform_tags (platforms : value) : result (list string) :=
  items <- Py.iter platforms ;;
  mapM Py.as_str items.

Definition platform_lines (platforms : value) : result (list string) :=
  if Py.truthy platforms then
    tags <- platform_tags platforms ;;
    Ok ["**Supported Platforms:** " ++ fmt_supported_platforms tags; ""]
  else Ok [].

(** One row of the inputs table. *)
Definition input_row (kv : scalar * value) : result string :=
  let k := fst kv in
  v <- Py.as_dict (Py.or (snd kv) (VDict [])) ;;
  Ok ("| " ++ md_escape_inline (VScalar k) ++ " | "
        ++ md_escape_inline (Py.get v "description") ++ " | "
        ++ md_escape_inline (Py.get v "type") ++ " | "
        ++ md_escape_table (Py.get v "default") ++ "|").

(** The inputs table of a non-empty mapping of parameters. *)
Definition inputs_table (items : pydict) : result (list string) :=
  rows <- mapM input_row items ;;
  Ok (["#### Inputs:";
       "| Name | Description | Type | Default Value |";
       "|------|-------------|------|---------------|"]
        ++ rows ++ [""; ""])%list.

(** [if isinstance(input_args, dict) and input_args: ...] *)
Definition input_lines (input_args : value) : result (list string) :=
  match input_args with
  | VDict ((_ :: _) as items) => inputs_table items
  | _ => Ok []
  end.

Definition is_True (v : value) : bool :=
  match v with VScalar (SBool true) => true | _ => false end.

(** [ex.get(k, default) if isinstance(ex, dict) else otherwise] *)
Definition executor_field (ex : value) (k : string) (default otherwise : value) : value :=
  match ex with
  | VDict d => Py.get_default d k default
  | _ => otherwise
  end.

Definition executor_lines (ex : value) : list string :=
  let ex_name :=
    match ex with
    | VDict d => md_escape_inline (Py.get_default d "name" (VStr ""))
    | _ => ""
    end in
  let elev := executor_field ex "elevation_required" VNone VNone in
  let elev_txt :=
    if is_True elev then "  Elevation Required (e.g. root or admin) " else "" in
  let head :=
    if negb (Str.is_empty ex_name)
    then ["#### Attack Commands: Run with `" ++ ex_name ++ "`!" ++ elev_txt; ""]
    else ["#### Attack Commands:"; ""] in
  let cmd := executor_field ex "command" VNone VNone in
  let cmd_lines :=
    if Py.truthy cmd
    then ["```" ++ code_fence_lang ex_name; md_escape_inline cmd; "```"; ""]
    else [] in
  let cleanup := executor_field ex "cleanup_command" VNone VNone in
  let cleanup_lines :=
    if Py.truthy cleanup
    then ["#### Cleanup Commands:"; "```" ++ code_fence_lang ex_name;
          md_escape_inline cleanup; "```"; ""; ""]
    else [] in
  (head ++ cmd_lines ++ cleanup_lines)%list.

(** The lines of a section after its heading. *)
Definition section_body (t : pydict) : result (list string) :=
  let desc := Py.or (Py.get t "description") (VStr "") in
  let platforms := Py.or (Py.get t "supported_platforms") (VList []) in
  let guid := md_escape_inline (Py.get_default t "auto_generated_guid" (VStr "")) in
  let desc_lines := if Py.truthy desc then [md_escape_inline desc; ""] else [] in
  plat_lines <- platform_lines platforms ;;
  let guid_lines :=
    if negb (Str.is_empty guid) then ["**auto_generated_guid:** " ++ guid; ""] else [] in
  let input_args := Py.or (Py.get t "input_arguments") (VDict []) in
  inputs <- input_lines input_args ;;
  let ex := Py.or (Py.get t "executor") (VDict []) in
  Ok (desc_lines ++ plat_lines ++ guid_lines ++ [""; ""; ""; ""]
        ++ inputs ++ executor_lines ex ++ [""; "<br/>"; "<br/>"; ""])%list.

(** Body of the sections loop. *)
Definition section (idx : nat) (t : value) : result (list string) :=
  t <- Py.as_dict t ;;
  let name := record_name idx t in
  body <- section_body t ;;
  Ok (("## Atomic Test #" ++ Py.dec_nat idx ++ " - " ++ name) :: body).

Definition header_lines (doc : pydict) (attack_desc : option string) : list string :=
  let tech := md_escape_inline (Py.get_default doc "attack_technique" (VStr "")) in
  let display :=
    md_escape_inline
      (Py.get_default doc "display_name" (Py.get_default doc "name" (VStr ""))) in
  ["# " ++ tech ++ " - " ++ display;
   "## [Description from ATT&CK](https://attack.mitre.org/techniques/" ++ tech ++ ")";
   "<blockquote>";
   "";
   match attack_desc with
   | Some d => if negb (Str.is_empty d) then Str.strip d else ""
   | None => ""
   end;
   "";
   "</blockquote>";
   "";
   "## Atomic Tests";
   ""].

(** ["\n".join(lines).rstrip() + "\n"] *)
Definition finish (lines : list string) : string :=
  Str.rstrip (Str.join (Str.of_char Char.newline) lines) ++ Str.of_char Char.newline.

Definition build_markdown (doc : pydict) (attack_desc : option string) : result string :=
  let lines := header_lines doc attack_desc in
  tests <- Py.iter (Py.or (Py.get doc "atomic_tests") (VList [])) ;;
  toc <- for_enumerate toc_entry 1 tests ;;
  let lines := (lines ++ toc ++ [""; "<br/>"; ""])%list in
  sections <- for_enumerate section 1 tests ;;
  let lines := (lines ++ sections ++ ["<br/>"])%list in
  Ok (finish lines).

(** ** The entry point

    The run reads and writes files and prints one line: the state it
    threads is the file store and the standard output.  An exception
    leaves the state as it was when it was raised. *)

Record args : Type := {
  yaml_file : string;
  out : option string;
  attack_desc_file : option string;
  fetch_mitre : bool
}.

Record world : Type := {
  files : string -> option string;
  stdout : list string
}.

Definition io (A : Type) : Type := world -> result A * world.

Definition io_ret {A : Type} (a : A) : io A := fun w => (Ok a, w).

Definition io_bind {A B : Type} (m : io A) (k : A -> io B) : io B :=
  fun w =>
    match m w with
    | (Ok a, w') => k a w'
    | (Err e, w') => (Err e, w')
    end.

Definition io_lift {A : Type} (r : result A) : io A := fun w => (r, w).

Notation "x <~ m ;; k" := (io_bind m (fun x => k))
  (at level 61, m at next level, right associativity).

(** [Path(p).read_text(encoding="utf-8")] *)
Definition read_text (p : string) : io string :=
  fun w =>
    match files w p with
    | Some text => (Ok text, w)
    | None => (Err FileNotFoundError, w)
    end.

(** [Path(p).write_text(text, encoding="utf-8")], taken to succeed: an
    error of the write itself, and what it leaves at [p], is outside the
    model. *)
Definition write_text (p text : string) : io unit :=
  fun w =>
    (Ok tt,
     {| files := fun q => if (q =? p)%string then Some text else files w q;
        stdout := stdout w |}).

Definition print (line : string) : io unit :=
  fun w => (Ok tt, {| files := files w; stdout := (stdout w ++ [line])%list |}).

Definition read_attack_desc_from_file (p : string) : io string :=
  text <~ read_text p ;;
  io_ret (Str.strip text).

(** An option of the command line counts when it is given and not empty. *)
Definition given (o : option string) : option string :=
  match o with
  | Some s => if Str.is_empty s then None else Some s
  | None => None
  end.

Section Main.

(** The collaborators outside the program: path resolution and suffix
    replacement of [pathlib], the loader of PyYAML, and the remote
    description fetch, which answers with a text or with nothing. *)
Variable resolve : string -> string.
Variable with_suffix_md : string -> string.
Variable safe_load : string -> result value.
Variable fetch_mitre_description : string -> option string.

Definition main (a : args) : io unit :=
  let ypath := resolve (yaml_file a) in
  text <~ read_text ypath ;;
  doc <~ io_lift (safe_load text) ;;
  match doc with
  | VDict doc =>
      let tech := md_escape_inline (Py.get_default doc "attack_technique" (VStr "")) in
      attack_desc <~
        match given (attack_desc_file a) with
        | Some p => d <~ read_attack_desc_from_file p ;; io_ret (Some d)
        | None =>
            if fetch_mitre a && negb (Str.is_empty tech)
            then io_ret (fetch_mitre_description tech)
            else io_ret None
        end ;;
      md <~ io_lift (build_markdown doc attack_desc) ;;
      let out :=
        match given (out a) with
        | Some o => resolve o
        | None => with_suffix_md ypath
        end in
      _ <~ write_text out md ;;
      print ("Wrote: " ++ out)
  | _ => io_lift (Err (SystemExit "YAML did not parse into an object."))
  end.

End Main.

(** ** Well-typed documents

    The shapes on which every step of the renderer has the receiver it
    expects.  A field that is missing, null or otherwise false always
    qualifies. *)

Definition all_strings (l : list value) : bool :=
  forallb (fun v => match v with VScalar (SStr _) => true | _ => false end) l.

Definition platforms_ok (platforms : value) : bool :=
  if Py.truthy platforms then
    match platforms with
    | VList l => all_strings l
    | VScalar (SStr _) => true
    | VDict d => all_strings (List.map (fun kv => VScalar (fst kv)) d)
    | VScalar _ => false
    end
  else true.

Definition spec_ok (v : value) : bool := negb (Py.truthy v) || Py.is_dict v.

Definition input_args_ok (input_args : value) : bool :=
  match input_args with
  | VDict d => forallb (fun kv => spec_ok (snd kv)) d
  | _ => true
  end.

Definition record_ok (t : value) : bool :=
  match t with
  | VDict t =>
      platforms_ok (Py.get t "supported_platforms")
      && input_args_ok (Py.get t "input_arguments")
  | _ => false
  end.

Definition tests_ok (tests : value) : bool :=
  if Py.truthy tests then
    match tests with
    | VList l => forallb record_ok l
    | _ => false
    end
  else true.

Definition doc_ok (doc : pydict) : bool := tests_ok (Py.get doc "atomic_tests").

(** The last character of a string. *)
Fixpoint last_char (s : string) : option ascii :=
  match s with
  | EmptyString => None
  | String c EmptyString => Some c
  | String _ s' => last_char s'
  end.

(** The text rendered for a table-of-contents entry of heading [h], and
    the heading line of its section. *)
Definition toc_line (h : string) : string :=
  "- [" ++ h ++ "](#" ++ slugify_github_anchor h ++ ")".

Definition heading_line (h : string) : string := "## " ++ h.

Definition toc_block (h : string) : list string := [toc_line h; ""].

Definition section_block (hb : string * list string) : list string :=
  heading_line (fst hb) :: snd hb.

(** The records of a list with their display indexes, as
    [enumerate(tests, start=idx)] pairs them. *)
Definition enumerate_from {A : Type} (idx : nat) (l : list A) : list (nat * A) :=
  combine (seq idx (List.length l)) l.

Definition headings_from (idx : nat) (rs : list pydict) : list string :=
  List.map (fun ir => record_heading (fst ir) (snd ir)) (enumerate_from idx rs).

(** The lines of a document with header [header], one table-of-contents
    entry and one section per heading of [hs], and section bodies
    [bodies]. *)
Definition layout (header hs : list string) (bodies : list (list string)) : list string :=
  (header ++ flat_map toc_block hs ++ [""; "<br/>"; ""]
     ++ flat_map section_block (combine hs bodies) ++ ["<br/>"])%list.

(** A mapping with the key [k] taken out, and a document with the field
    [k] taken out of every record. *)
Definition without (k : string) (d : pydict) : pydict :=
  List.filter (fun kv => negb (Py.key_is k (fst kv))) d.

Definition record_without (k : string) (t : value) : value :=
  match t with
  | VDict r => VDict (without k r)
  | _ => t
  end.

Definition records_without (k : string) (doc : pydict) : pydict :=
  List.map
    (fun kv =>
       if Py.key_is "atomic_tests" (fst kv) then
         (fst kv,
          match snd kv with
          | VList l => VList (List.map (record_without k) l)
          | v => v
          end)
       else kv)
    doc.

(** *** Sample documents *)

Definition sample_records : list pydict :=
  [ [(SStr "name", VStr "Install net.exe");
     (SStr "supported_platforms", VList [VStr "windows"; VStr "macos"]);
     (SStr "input_arguments",
      VDict [(SStr "path", VDict [(SStr "default", VStr "C:\tmp")]); (SStr "n", VNone)]);
     (SStr "executor",
      VDict [(SStr "name", VStr "command_prompt"); (SStr "command", VStr "net user")])];
    [(SStr "description", VStr "No name given")] ].

Definition sample_doc : pydict :=
  [(SStr "attack_technique", VStr "T1003");
   (SStr "display_name", VStr "OS Credential Dumping");
   (SStr "atomic_tests", VList (List.map VDict sample_records))].

(** What the renderer gives for the sample document. *)
Definition sample_output : string :=
  Eval vm_compute in
    match build_markdown sample_doc None with
    | Ok md => md
    | Err _ => ""
    end.

(** A document whose only record is a plain string, and one whose
    record gives a parameter as a plain string. *)
Definition string_record_doc : pydict :=
  [(SStr "attack_technique", VStr "T1003");
   (SStr "atomic_tests", VList [VStr "Install net.exe"])].

Definition string_parameter_doc : pydict :=
  [(SStr "attack_technique", VStr "T1003");
   (SStr "atomic_tests",
    VList [VDict [(SStr "name", VStr "Install net.exe");
                  (SStr "input_arguments", VDict [(SStr "path", VStr "C:\tmp")])]])].

(** What the loader gave is a mapping. *)
Definition parses_to_mapping (r : result value) : bool :=
  match r with
  | Ok (VDict _) => true
  | _ => false
  end.

(** A run on the file [T1003.yaml], with a loader that reads the text
    [tests] as a sequence and any other text as the sample document. *)
Definition sample_args : args :=
  {| yaml_file := "T1003.yaml"; out := None; attack_desc_file := None; fetch_mitre := false |}.

Definition sample_loader (text : string) : result value :=
  if (text =? "- tests")%string then Ok (VList [VStr "tests"]) else Ok (VDict sample_doc).

Definition sample_with_suffix_md (p : string) : string := "T1003.md".

Definition sample_fetch (tech : string) : option string := None.

Definition world_with (text : string) : world :=
  {| files := fun p => if (p =? "T1003.yaml")%string then Some text else None;
     stdout := [] |}.

(** Characters that lowering leaves alone, and the characters a slug is
    made of. *)
Definition lower_fixed (c : ascii) : bool := (Char.lower c =? c)%char.

Definition slug_char (c : ascii) : bool :=
  (Char.is_word c && lower_fixed c) || is_hyphen c.

(** *** Vocabulary of the further properties *)

(** The characters an anchor can hold: digits, lower-case letters, the
    underscore and the hyphen. *)
Definition anchor_safe (c : ascii) : bool :=
  Char.is_digit c || Char.is_lower c || (c =? "_")%char || (c =? Char.hyphen)%char.

Definition not_space (c : ascii) : bool := negb (Char.is_space c).

(** A string with no white space at either end. *)
Definition trimmed (s : string) : bool :=
  match s with
  | EmptyString => true
  | String c _ => not_space c
  end
  && match last_char s with
     | Some c => not_space c
     | None => true
     end.

(** The characters the table-cell escaper replaces, and those among
    them that its output cannot hold (the ampersand stays, as the first
    character of every entity). *)
Definition cell_special (c : ascii) : bool :=
  (c =? "&")%char || (c =? "<")%char || (c =? ">")%char
  || (c =? Char.dquote)%char || (c =? Char.squote)%char || (c =? Char.backslash)%char.

Definition cell_raw (c : ascii) : bool :=
  (c =? "<")%char || (c =? ">")%char
  || (c =? Char.dquote)%char || (c =? Char.squote)%char || (c =? Char.backslash)%char.

(** The five tags a code fence can carry. *)
Definition fence_tags : list string := ["cmd"; "powershell"; "bash"; "sh"; "text"].

(** The run asks the remote source only when the flag is set and no
    description file is given. *)
Definition uses_fetch (a : args) : bool :=
  match given (attack_desc_file a) with
  | Some _ => false
  | None => fetch_mitre a
  end.

(** The sample run on a mapping, and the arguments of a run that asks
    for the remote description. *)
Definition sample_run : result unit * world :=
  main (fun p => p) sample_with_suffix_md sample_loader sample_fetch
    sample_args (world_with "attack_technique: T1003").

Definition fetch_args : args :=
  {| yaml_file := "T1003.yaml"; out := Some "out/T1003.md";
     attack_desc_file := None; fetch_mitre := true |}.

Definition nameless_loader (text : string) : result value :=
  Ok (VDict [(SStr "display_name", VStr "No technique")]).

Definition remote_text (tech : string) : option string := Some "A remote description.".

(** *** The lines of the output text *)

(** [s.split("\n")]: the text between the newlines of [s]. *)
Fixpoint lines_of (s : string) : list string :=
  match s with
  | EmptyString => [""]
  | String c s' =>
      if (c =? Char.newline)%char then "" :: lines_of s'
      else match lines_of s' with
           | l :: ls => String c l :: ls
           | [] => [Str.of_char c]
           end
  end.







(** A text without newline, and a text none of whose lines reads as an
    entry or as a heading. *)
Definition single_line (s : string) : bool := negb (Str.mem Char.newline s).






(** *** Values that [str] renders

    [str] and [repr] raise on an integer of more than 4300 digits, and
    on containers nested beyond the depth the interpreter allows; the
    values below stay well inside both limits. *)
Definition small_int (z : Z) : bool := (Z.abs z <? 10 ^ 4300)%Z.

Definition small_scalar (a : scalar) : bool :=
  match a with
  | SInt z => small_int z
  | _ => true
  end.

Fixpoint small_ints (v : value) : bool :=
  match v with
  | VScalar a => small_scalar a
  | VList l => forallb small_ints l
  | VDict d => forallb (fun kv => small_scalar (fst kv) && small_ints (snd kv)) d
  end.

Fixpoint depth (v : value) : nat :=
  match v with
  | VScalar _ => 0
  | VList l => S (fold_right (fun x m => Nat.max (depth x) m) 0 l)
  | VDict d => S (fold_right (fun kv m => Nat.max (depth (snd kv)) m) 0 d)
  end.

Definition printable (v : value) : bool := small_ints v && (depth v <=? 100)%nat.

Definition printable_doc (doc : pydict) : bool := printable (VDict doc).

(** *** ASCII text *)

Definition is_ascii (c : ascii) : bool := (Char.code c <? 128)%N.

Definition ascii_text (s : string) : bool := Str.all is_ascii s.

(** *** The run up to the write *)

(** The description the run chooses: the trimmed text of the description
    file when one is given, else the remote text when the flag is set and
    the technique is not empty, else none. *)
Definition chosen_description (fetch_mitre_description : string -> option string)
    (a : args) (w : world) (doc : pydict) : result (option string) :=
  match given (attack_desc_file a) with
  | Some p =>
      match files w p with
      | Some text => Ok (Some (Str.strip text))
      | None => Err FileNotFoundError
      end
  | None =>
      let tech := md_escape_inline (Py.get_default doc "attack_technique" (VStr "")) in
      Ok (if fetch_mitre a && negb (Str.is_empty tech)
          then fetch_mitre_description tech
          else None)
  end.

(** What the lines of [main] before the write compute from the files:
    the rendered document, or the error of the first step that fails. *)
Definition rendered (resolve : string -> string) (safe_load : string -> result value)
    (fetch_mitre_description : string -> option string)
    (a : args) (w : world) : result string :=
  match files w (resolve (yaml_file a)) with
  | None => Err FileNotFoundError
  | Some text =>
      doc <- safe_load text ;;
      match doc with
      | VDict doc =>
          d <- chosen_description fetch_mitre_description a w doc ;;
          build_markdown doc d
      | _ => Err (SystemExit "YAML did not parse into an object.")
      end
  end.

(** * Properties *)

(** ** Facts on characters, by inspection of the 256 bytes *)

Ltac each_byte c :=
  destruct c as [[] [] [] [] [] [] [] []]; vm_compute; try reflexivity; try discriminate.

Lemma lower_idempotent c : lower_fixed (Char.lower c) = true.
Proof. each_byte c. Qed.

Lemma dot_not_anchor c : anchor_char c = true -> negb (c =? Char.dot)%char = true.
Proof. each_byte c. Qed.

Lemma anchor_nonspace_slug c :
  anchor_char c && lower_fixed c = true -> Char.is_space c = false -> slug_char c = true.
Proof. each_byte c. Qed.

Lemma slug_char_nonspace c : slug_char c = true -> negb (Char.is_space c) = true.
Proof. each_byte c. Qed.

Lemma slug_char_lower c : slug_char c = true -> lower_fixed c = true.
Proof. each_byte c. Qed.

Lemma slug_char_anchor c : slug_char c = true -> anchor_char c = true.
Proof. each_byte c. Qed.

Lemma is_hyphen_eq c : is_hyphen c = true -> c = Char.hyphen.
Proof. each_byte c. Qed.

Lemma digit_nonspace c : Char.is_digit c = true -> negb (Char.is_space c) = true.
Proof. each_byte c. Qed.

(** ** Facts on the string primitives *)

Module StrFacts.

Lemma app_empty_r s : s ++ "" = s.
Proof. induction s as [|c s IH]; simpl; [|rewrite IH]; reflexivity. Qed.

Lemma app_assoc s t u : (s ++ t) ++ u = s ++ t ++ u.
Proof. induction s as [|c s IH]; simpl; [|rewrite IH]; reflexivity. Qed.

Lemma all_impl (p q : ascii -> bool) s :
  (forall c, p c = true -> q c = true) -> Str.all p s = true -> Str.all q s = true.
Proof.
  intros Hpq. induction s as [|c s IH]; simpl; [reflexivity|].
  intros H. apply andb_true_iff in H as [Hc Hs].
  rewrite (Hpq _ Hc), (IH Hs). reflexivity.
Qed.

Lemma all_app p s t : Str.all p (s ++ t) = Str.all p s && Str.all p t.
Proof.
  induction s as [|c s IH]; simpl; [reflexivity|].
  rewrite IH, andb_assoc. reflexivity.
Qed.

Lemma all_map p f s : (forall c, p (f c) = true) -> Str.all p (Str.map f s) = true.
Proof.
  intros Hf. induction s as [|c s IH]; simpl; [reflexivity|].
  rewrite Hf, IH. reflexivity.
Qed.

Lemma all_filter p q s :
  Str.all p s = true -> Str.all (fun c => q c && p c) (Str.filter q s) = true.
Proof.
  induction s as [|c s IH]; simpl; [reflexivity|].
  intros H. apply andb_true_iff in H as [Hc Hs].
  destruct (q c) eqn:Hq; simpl; [rewrite Hq, Hc; simpl|]; auto.
Qed.

Lemma all_sub_runs p q cls rep s :
  Str.all q rep = true ->
  (forall c, p c = true -> cls c = false -> q c = true) ->
  Str.all p s = true -> Str.all q (Str.sub_runs cls rep s) = true.
Proof.
  intros Hrep Hpq. induction s as [|c s IH]; [reflexivity|].
  intros H. simpl in H. apply andb_true_iff in H as [Hc Hs].
  specialize (IH Hs). cbn [Str.sub_runs].
  destruct (cls c) eqn:Hcls.
  - destruct s as [|c' s']; [exact Hrep|].
    destruct (cls c'); [exact IH|].
    rewrite all_app, Hrep, IH. reflexivity.
  - cbn [Str.all]. rewrite (Hpq _ Hc Hcls), IH. reflexivity.
Qed.

Lemma map_fixed f s :
  Str.all (fun c => (f c =? c)%char) s = true -> Str.map f s = s.
Proof.
  induction s as [|c s IH]; simpl; [reflexivity|].
  intros H. apply andb_true_iff in H as [Hc Hs].
  apply Ascii.eqb_eq in Hc. rewrite Hc, (IH Hs). reflexivity.
Qed.

Lemma filter_fixed keep s : Str.all keep s = true -> Str.filter keep s = s.
Proof.
  induction s as [|c s IH]; simpl; [reflexivity|].
  intros H. apply andb_true_iff in H as [Hc Hs].
  rewrite Hc, (IH Hs). reflexivity.
Qed.

Lemma replace_char_fixed old new s :
  Str.all (fun c => negb (c =? old)%char) s = true -> Str.replace_char old new s = s.
Proof.
  induction s as [|c s IH]; simpl; [reflexivity|].
  intros H. apply andb_true_iff in H as [Hc Hs].
  apply negb_true_iff in Hc. rewrite Hc, (IH Hs). reflexivity.
Qed.

Lemma replace_char_app old new s t :
  Str.replace_char old new (s ++ t)
  = Str.replace_char old new s ++ Str.replace_char old new t.
Proof.
  induction s as [|c s IH]; simpl; [reflexivity|].
  rewrite IH. destruct (c =? old)%char; simpl; [|reflexivity].
  symmetry. apply app_assoc.
Qed.

Lemma sub_runs_fixed_none cls rep s :
  Str.all (fun c => negb (cls c)) s = true -> Str.sub_runs cls rep s = s.
Proof.
  induction s as [|c s IH]; [reflexivity|].
  intros H. simpl in H. apply andb_true_iff in H as [Hc Hs].
  apply negb_true_iff in Hc. cbn [Str.sub_runs]. rewrite Hc, (IH Hs). reflexivity.
Qed.

Lemma sub_runs_no_adjacent cls d s :
  cls d = true -> Str.no_adjacent cls (Str.sub_runs cls (Str.of_char d) s) = true.
Proof.
  intros Hd. induction s as [|c s IH]; [reflexivity|].
  cbn [Str.sub_runs]. destruct (cls c) eqn:Hc.
  - destruct s as [|c' s']; [simpl; rewrite orb_true_r; reflexivity|].
    destruct (cls c') eqn:Hc'; [exact IH|].
    cbn [Str.sub_runs] in IH |- *. rewrite Hc' in IH |- *.
    change (Str.of_char d ++ ?x) with (String d x).
    cbn [Str.no_adjacent] in IH |- *. rewrite Hc' in *. simpl in IH |- *.
    rewrite orb_true_r. exact IH.
  - cbn [Str.no_adjacent]. rewrite Hc, IH. reflexivity.
Qed.

Lemma sub_runs_fixed cls d s :
  Str.no_adjacent cls s = true ->
  Str.all (fun c => negb (cls c) || (c =? d)%char) s = true ->
  Str.sub_runs cls (Str.of_char d) s = s.
Proof.
  induction s as [|c s IH]; [reflexivity|].
  intros Hadj Hall. cbn [Str.no_adjacent] in Hadj. cbn [Str.all] in Hall.
  apply andb_true_iff in Hadj as [Hc Hadj].
  apply andb_true_iff in Hall as [Hcd Hall].
  specialize (IH Hadj Hall). cbn [Str.sub_runs].
  destruct (cls c) eqn:Hcls; simpl in Hc, Hcd.
  - apply Ascii.eqb_eq in Hcd. subst c.
    destruct s as [|c' s']; [reflexivity|].
    apply negb_true_iff in Hc. rewrite Hc, IH. reflexivity.
  - rewrite IH. reflexivity.
Qed.

Lemma lstrip_fixed s :
  Str.all (fun c => negb (Char.is_space c)) s = true -> Str.lstrip s = s.
Proof.
  destruct s as [|c s]; simpl; [reflexivity|].
  intros H. apply andb_true_iff in H as [Hc _].
  apply negb_true_iff in Hc. rewrite Hc. reflexivity.
Qed.

Lemma rstrip_fixed s :
  Str.all (fun c => negb (Char.is_space c)) s = true -> Str.rstrip s = s.
Proof.
  induction s as [|c s IH]; simpl; [reflexivity|].
  intros H. apply andb_true_iff in H as [Hc Hs].
  apply negb_true_iff in Hc. rewrite (IH Hs), Hc.
  destruct s; reflexivity.
Qed.

Lemma strip_fixed s :
  Str.all (fun c => negb (Char.is_space c)) s = true -> Str.strip s = s.
Proof.
  intros H. unfold Str.strip. rewrite (lstrip_fixed _ H). apply rstrip_fixed, H.
Qed.

End StrFacts.

(** ** The anchor slugger *)

Lemma filter_has_no_dot s :
  Str.replace_char Char.dot "" (Str.filter anchor_char s) = Str.filter anchor_char s.
Proof.
  apply StrFacts.replace_char_fixed.
  apply StrFacts.all_impl with (p := fun c => anchor_char c && true).
  - intros c Hc. rewrite andb_true_r in Hc. apply dot_not_anchor, Hc.
  - apply StrFacts.all_filter. induction s as [|c s IH]; simpl; auto.
Qed.

Lemma slug_chars s : Str.all slug_char (slugify_github_anchor s) = true.
Proof.
  unfold slugify_github_anchor. rewrite filter_has_no_dot.
  apply StrFacts.all_sub_runs with (p := slug_char); [reflexivity|auto|].
  apply StrFacts.all_sub_runs with (p := fun c => anchor_char c && lower_fixed c);
    [reflexivity|apply anchor_nonspace_slug|].
  apply StrFacts.all_filter, StrFacts.all_map, lower_idempotent.
Qed.

Lemma slug_no_adjacent_hyphens s :
  Str.no_adjacent is_hyphen (slugify_github_anchor s) = true.
Proof.
  unfold slugify_github_anchor.
  apply (StrFacts.sub_runs_no_adjacent is_hyphen Char.hyphen). reflexivity.
Qed.

(** Every step of the slugger leaves alone a string made of slug
    characters with no two hyphens in a row. *)
Lemma slug_fixed s :
  Str.all slug_char s = true -> Str.no_adjacent is_hyphen s = true ->
  slugify_github_anchor s = s.
Proof.
  intros Hall Hadj. unfold slugify_github_anchor.
  rewrite StrFacts.strip_fixed
    by (apply StrFacts.all_impl with (p := slug_char); [apply slug_char_nonspace|exact Hall]).
  unfold Str.lower. rewrite StrFacts.map_fixed
    by (apply StrFacts.all_impl with (p := slug_char); [apply slug_char_lower|exact Hall]).
  rewrite filter_has_no_dot.
  rewrite StrFacts.filter_fixed
    by (apply StrFacts.all_impl with (p := slug_char); [apply slug_char_anchor|exact Hall]).
  rewrite (StrFacts.sub_runs_fixed_none Char.is_space)
    by (apply StrFacts.all_impl with (p := slug_char); [apply slug_char_nonspace|exact Hall]).
  apply (StrFacts.sub_runs_fixed is_hyphen Char.hyphen); [exact Hadj|].
  apply StrFacts.all_impl with (p := slug_char); [|exact Hall].
  intros c _. unfold is_hyphen. destruct (c =? Char.hyphen)%char; reflexivity.
Qed.

(** C1, as the code has it: the slug of the heading
    "Atomic Test #1 - Install net.exe" is "atomic-test-1-install-netexe";
    the three hyphens that the blanks around the hyphen give are
    collapsed into one by the last step. *)
Theorem slug_install_net_exe :
  slugify_github_anchor "Atomic Test #1 - Install net.exe" = "atomic-test-1-install-netexe".
Proof. reflexivity. Qed.

(** C1, as stated, fails: the slug of that heading is not the string
    with three hyphens in a row. *)
Lemma slug_install_net_exe_not_triple :
  slugify_github_anchor "Atomic Test #1 - Install net.exe" <> "atomic-test-1---install-netexe".
Proof. vm_compute. discriminate. Qed.

(** C4: the slugger is idempotent; slugging a slug gives it back. *)
Theorem slug_idempotent (h : string) :
  slugify_github_anchor (slugify_github_anchor h) = slugify_github_anchor h.
Proof. apply slug_fixed; [apply slug_chars|apply slug_no_adjacent_hyphens]. Qed.

(** C9: the dot-removal step is redundant; the slugger equals the variant
    without it on every string, since the filter before it keeps no dot. *)
Theorem slug_dot_step_redundant (s : string) :
  slugify_github_anchor s = slugify_without_dot_step s.
Proof.
  unfold slugify_github_anchor, slugify_without_dot_step.
  rewrite filter_has_no_dot. reflexivity.
Qed.

(** ** Trimming around a kept character *)

Module StripFacts.

Lemma lstrip_app_keep a c t :
  Char.is_space c = false -> Str.lstrip (a ++ String c t) = Str.lstrip a ++ String c t.
Proof.
  intros Hc. induction a as [|x a IH]; simpl; [rewrite Hc; reflexivity|].
  destruct (Char.is_space x); [exact IH|reflexivity].
Qed.

Lemma rstrip_cons_keep c s :
  Char.is_space c = false -> Str.rstrip (String c s) = String c (Str.rstrip s).
Proof. intros Hc. simpl. rewrite Hc. destruct (Str.rstrip s); reflexivity. Qed.

Lemma rstrip_app_keep a t :
  Str.rstrip t <> "" -> Str.rstrip (a ++ t) = a ++ Str.rstrip t.
Proof.
  intros Ht. induction a as [|x a IH]; simpl; [reflexivity|].
  rewrite IH. destruct (a ++ Str.rstrip t) eqn:E; [|reflexivity].
  destruct a; simpl in E; [contradiction|discriminate].
Qed.

(** The last character of a right-trimmed string is not white space. *)
Lemma rstrip_last s c :
  last_char (Str.rstrip s) = Some c -> Char.is_space c = false.
Proof.
  induction s as [|x s IH]; simpl; [discriminate|].
  destruct (Str.rstrip s) as [|y r] eqn:E.
  - destruct (Char.is_space x) eqn:Hx; simpl; [discriminate|].
    intros H. injection H as <-. exact Hx.
  - intros H. apply IH. exact H.
Qed.

Lemma last_char_snoc s c : last_char (s ++ Str.of_char c) = Some c.
Proof.
  induction s as [|x s IH]; [reflexivity|].
  simpl. rewrite IH. destruct (s ++ Str.of_char c) eqn:E; [|reflexivity].
  destruct s; discriminate.
Qed.

Lemma last_char_split s c : last_char s = Some c -> exists s', s = s' ++ Str.of_char c.
Proof.
  induction s as [|x s IH]; simpl; [discriminate|].
  destruct s as [|y s'].
  - intros H. injection H as <-. exists "". reflexivity.
  - intros H. destruct (IH H) as [s0 E]. exists (String x s0).
    simpl. rewrite <- E. reflexivity.
Qed.

End StripFacts.

(** ** The field escapers *)

Lemma html_escape_app s t : html_escape (s ++ t) = html_escape s ++ html_escape t.
Proof. unfold html_escape. now rewrite !StrFacts.replace_char_app. Qed.

Lemma cell_entity_chain c :
  Str.replace_char Char.backslash "&#92;" (html_escape (Str.of_char c)) = cell_entity c.
Proof. each_byte c. Qed.

Lemma cell_encode_app s t : cell_encode (s ++ t) = cell_encode s ++ cell_encode t.
Proof.
  induction s as [|c s IH]; simpl; [reflexivity|].
  rewrite IH. symmetry. apply StrFacts.app_assoc.
Qed.

(** The chain of six replacements is the one-pass encoding: no character
    produced by one replacement is touched by a later one. *)
Lemma escape_chain s :
  Str.replace_char Char.backslash "&#92;" (html_escape s) = cell_encode s.
Proof.
  induction s as [|c s IH]; [reflexivity|].
  change (String c s) with (Str.of_char c ++ s).
  rewrite html_escape_app, StrFacts.replace_char_app, IH, cell_entity_chain.
  reflexivity.
Qed.

Lemma strip_around_backslash_amp a b :
  Str.strip (a ++ "\&" ++ b) = Str.lstrip a ++ "\&" ++ Str.rstrip b.
Proof.
  unfold Str.strip.
  change (a ++ "\&" ++ b) with (a ++ String "\" (String "&" b)).
  rewrite StripFacts.lstrip_app_keep by reflexivity.
  assert (E : Str.rstrip (String "\" (String "&" b)) = String "\" (String "&" (Str.rstrip b)))
    by (now rewrite !StripFacts.rstrip_cons_keep).
  rewrite StripFacts.rstrip_app_keep; rewrite E; [reflexivity|discriminate].
Qed.

(** C3: the table-cell escaper gives the empty string for None and
    otherwise the stringified, trimmed text with entity escaping and then
    the backslash replacement, which together amount to one pass giving
    each special character its entity once; a backslash followed by an
    ampersand comes out as &#92;&amp;. *)
Theorem md_escape_table_policy :
  md_escape_table VNone = ""
  /\ (forall s : value,
         md_escape_table s =
           match s with
           | VScalar SNone => ""
           | _ => Str.replace_char Char.backslash "&#92;" (html_escape (Str.strip (Py.str s)))
           end)
  /\ (forall s : value,
         md_escape_table s =
           match s with
           | VScalar SNone => ""
           | _ => cell_encode (Str.strip (Py.str s))
           end)
  /\ (forall a b : string,
         md_escape_table (VStr (a ++ "\&" ++ b))
         = cell_encode (Str.lstrip a) ++ "&#92;&amp;" ++ cell_encode (Str.rstrip b))
  /\ md_escape_table (VStr "\&") = "&#92;&amp;".
Proof.
  split; [reflexivity|]. split; [reflexivity|].
  assert (H : forall s : value,
             md_escape_table s =
               match s with
               | VScalar SNone => ""
               | _ => cell_encode (Str.strip (Py.str s))
               end).
  { intros s. unfold md_escape_table.
    destruct s as [[]| |]; try reflexivity; apply escape_chain. }
  split; [exact H|]. split; [|reflexivity].
  intros a b. rewrite H. cbn [VStr Py.str Py.str_scalar].
  rewrite strip_around_backslash_amp, !cell_encode_app. reflexivity.
Qed.

(** ** The platform formatter *)

Lemma titlecase_spec p : titlecase p = spec_title (Str.strip p).
Proof. reflexivity. Qed.

(** C7, as the code has it: the empty list gives the empty string;
    otherwise each tag is trimmed first, then written macOS when it is
    macos in any case and else with its first letter capitalised and the
    rest kept, and the results are joined with ", " in input order.  On
    tags without surrounding white space this is the formatter the
    specification words. *)
Theorem fmt_supported_platforms_trimmed :
  fmt_supported_platforms [] = ""
  /\ (forall tags, fmt_supported_platforms tags
                   = spec_format_platforms (List.map Str.strip tags))
  /\ (forall tags, fmt_supported_platforms tags
                   = Str.join ", " (List.map (fun p => spec_title (Str.strip p)) tags))
  /\ fmt_supported_platforms ["windows"; "macos"; "linux"] = "Windows, macOS, Linux".
Proof.
  split; [reflexivity|]. split; [|split; [|reflexivity]].
  - intros [|p tags]; [reflexivity|].
    unfold fmt_supported_platforms, spec_format_platforms.
    cbn [List.map]. rewrite List.map_map. reflexivity.
  - intros [|p tags]; reflexivity.
Qed.

(** C7, as stated, fails: a tag with a leading blank is trimmed by the
    code, so that " macos" is written macOS, where capitalising the first
    character and keeping the rest leaves the tag as it is. *)
Lemma fmt_supported_platforms_not_spec :
  fmt_supported_platforms [" macos"] = "macOS"
  /\ spec_format_platforms [" macos"] = " macos"
  /\ fmt_supported_platforms [" macos"] <> spec_format_platforms [" macos"].
Proof. repeat split. vm_compute. discriminate. Qed.

(** ** The renderer: when it returns *)

Lemma is_ok_mapM {A B : Type} (f : A -> result B) l :
  is_ok (mapM f l) = forallb (fun a => is_ok (f a)) l.
Proof.
  induction l as [|a l IH]; [reflexivity|].
  simpl. destruct (f a); simpl; [|reflexivity].
  rewrite <- IH. destruct (mapM f l); reflexivity.
Qed.

Lemma is_ok_for_enumerate body (ok : value -> bool) l :
  (forall i t, is_ok (body i t) = ok t) ->
  forall idx, is_ok (for_enumerate body idx l) = forallb ok l.
Proof.
  intros Hbody. induction l as [|t l IH]; intros idx; [reflexivity|].
  simpl. rewrite <- Hbody with (i := idx). destruct (body idx t); simpl; [|reflexivity].
  rewrite <- (IH (S idx)). destruct (for_enumerate body (S idx) l); reflexivity.
Qed.

Lemma forallb_ext {A : Type} (f g : A -> bool) l :
  (forall a, f a = g a) -> forallb f l = forallb g l.
Proof.
  intros Hfg. induction l as [|a l IH]; simpl; [reflexivity|].
  rewrite Hfg, IH. reflexivity.
Qed.

Lemma is_ok_bind_ret {A B : Type} (m : result A) (f : A -> B) :
  is_ok (x <- m ;; Ok (f x)) = is_ok m.
Proof. destruct m; reflexivity. Qed.

Lemma forallb_map {A B : Type} (f : A -> B) (p : B -> bool) l :
  forallb p (List.map f l) = forallb (fun a => p (f a)) l.
Proof. induction l as [|a l IH]; simpl; [|rewrite IH]; reflexivity. Qed.

Lemma truthy_or v d : Py.truthy v = true -> Py.or v d = v.
Proof. unfold Py.or. intros ->. reflexivity. Qed.

Lemma falsy_or v d : Py.truthy v = false -> Py.or v d = d.
Proof. unfold Py.or. intros ->. reflexivity. Qed.

Lemma all_strings_chars l :
  all_strings (List.map (fun c => VStr (Str.of_char c)) l) = true.
Proof. induction l; simpl; auto. Qed.

Lemma is_ok_as_str_all l : is_ok (mapM Py.as_str l) = all_strings l.
Proof.
  rewrite is_ok_mapM. unfold all_strings. apply forallb_ext.
  intros [[]| |]; reflexivity.
Qed.

Lemma platform_lines_ok v :
  is_ok (platform_lines (Py.or v (VList []))) = platforms_ok v.
Proof.
  unfold platforms_ok. destruct (Py.truthy v) eqn:Hv.
  - rewrite (truthy_or _ _ Hv). unfold platform_lines, platform_tags. rewrite Hv.
    destruct v as [a|l|d].
    + destruct a; try reflexivity. cbn [Py.iter bind].
      pose proof (is_ok_as_str_all (List.map (fun c => VStr (Str.of_char c)) (Str.chars s))) as H.
      rewrite all_strings_chars in H.
      destruct (mapM Py.as_str _); [reflexivity|discriminate].
    + cbn [Py.iter bind]. rewrite <- is_ok_as_str_all.
      destruct (mapM Py.as_str l); reflexivity.
    + cbn [Py.iter bind]. rewrite <- is_ok_as_str_all.
      destruct (mapM Py.as_str _); reflexivity.
  - rewrite (falsy_or _ _ Hv). reflexivity.
Qed.

Lemma input_row_ok kv : is_ok (input_row kv) = spec_ok (snd kv).
Proof.
  unfold input_row, spec_ok. destruct (Py.truthy (snd kv)) eqn:Hv.
  - rewrite (truthy_or _ _ Hv). destruct (snd kv) as [a|l|d]; reflexivity.
  - rewrite (falsy_or _ _ Hv). reflexivity.
Qed.

Lemma input_lines_ok v :
  is_ok (input_lines (Py.or v (VDict []))) = input_args_ok v.
Proof.
  destruct (Py.truthy v) eqn:Hv.
  - rewrite (truthy_or _ _ Hv). destruct v as [a|l|d]; try reflexivity.
    destruct d as [|kv d]; [reflexivity|].
    change (is_ok (inputs_table (kv :: d)) = forallb (fun x => spec_ok (snd x)) (kv :: d)).
    unfold inputs_table. rewrite is_ok_bind_ret, is_ok_mapM.
    apply forallb_ext, input_row_ok.
  - rewrite (falsy_or _ _ Hv).
    destruct v as [a|l|d]; try reflexivity.
    destruct d; [reflexivity|discriminate].
Qed.

Lemma section_body_ok t :
  is_ok (section_body t) = record_ok (VDict t).
Proof.
  unfold section_body, record_ok.
  rewrite <- platform_lines_ok, <- input_lines_ok.
  destruct (platform_lines _); [|reflexivity].
  cbn [bind is_ok andb]. destruct (input_lines _); reflexivity.
Qed.

Lemma section_ok idx t : is_ok (section idx t) = record_ok t.
Proof.
  destruct t as [a|l|d]; try reflexivity.
  unfold section. cbn [Py.as_dict bind]. rewrite <- section_body_ok.
  destruct (section_body d); reflexivity.
Qed.

Lemma toc_entry_ok idx t : is_ok (toc_entry idx t) = Py.is_dict t.
Proof. destruct t; reflexivity. Qed.

Lemma record_ok_is_dict l : forallb record_ok l = true -> forallb Py.is_dict l = true.
Proof.
  induction l as [|t l IH]; simpl; [reflexivity|].
  intros H. apply andb_true_iff in H as [Ht Hl].
  rewrite (IH Hl). destruct t; try discriminate; reflexivity.
Qed.

Lemma render_list_ok doc desc l :
  Py.iter (Py.or (Py.get doc "atomic_tests") (VList [])) = Ok l ->
  is_ok (build_markdown doc desc) = forallb record_ok l.
Proof.
  intros Hl. unfold build_markdown. rewrite Hl. cbn [bind].
  pose proof (is_ok_for_enumerate toc_entry Py.is_dict l toc_entry_ok 1) as Htoc.
  pose proof (is_ok_for_enumerate section record_ok l section_ok 1) as Hsec.
  destruct (forallb record_ok l) eqn:Hok.
  - rewrite (record_ok_is_dict _ Hok) in Htoc.
    destruct (for_enumerate toc_entry 1 l); [|discriminate].
    destruct (for_enumerate section 1 l); [reflexivity|discriminate].
  - destruct (for_enumerate toc_entry 1 l); [|reflexivity].
    destruct (for_enumerate section 1 l); [discriminate|reflexivity].
Qed.

(** The renderer returns exactly on the well-typed documents. *)
Lemma build_markdown_ok doc desc : is_ok (build_markdown doc desc) = doc_ok doc.
Proof.
  unfold doc_ok, tests_ok.
  destruct (Py.truthy (Py.get doc "atomic_tests")) eqn:Hv.
  - destruct (Py.get doc "atomic_tests") as [a|l|d] eqn:Hget.
    + unfold build_markdown. rewrite Hget, (truthy_or _ _ Hv).
      destruct a; try reflexivity.
      destruct s as [|c s]; [discriminate|reflexivity].
    + apply render_list_ok. rewrite Hget, (truthy_or _ _ Hv). reflexivity.
    + unfold build_markdown. rewrite Hget, (truthy_or _ _ Hv).
      destruct d as [|kv d]; [discriminate|reflexivity].
  - rewrite (render_list_ok doc desc []); [reflexivity|].
    rewrite (falsy_or _ _ Hv). reflexivity.
Qed.

(** ** The renderer: the shape of what it returns *)

Lemma headings_from_cons idx r rs :
  headings_from idx (r :: rs) = record_heading idx r :: headings_from (S idx) rs.
Proof. reflexivity. Qed.

Lemma headings_from_length idx rs : List.length (headings_from idx rs) = List.length rs.
Proof.
  revert idx. induction rs as [|r rs IH]; intros idx; [reflexivity|].
  rewrite headings_from_cons. simpl. rewrite IH. reflexivity.
Qed.

Lemma headings_from_nth idx rs i r :
  nth_error rs i = Some r ->
  nth_error (headings_from idx rs) i = Some (record_heading (idx + i) r).
Proof.
  revert idx i. induction rs as [|r0 rs IH]; intros idx [|i] H; try discriminate.
  - injection H as ->. rewrite Nat.add_0_r. reflexivity.
  - rewrite headings_from_cons. simpl. rewrite (IH (S idx) i H).
    rewrite Nat.add_succ_r. reflexivity.
Qed.

Lemma toc_entry_block idx r :
  toc_entry idx (VDict r) = Ok (toc_block (record_heading idx r)).
Proof.
  unfold toc_entry, toc_block, toc_line, record_heading. cbn [Py.as_dict bind].
  do 2 f_equal. cbn [append]. do 15 f_equal.
  rewrite !StrFacts.app_assoc. reflexivity.
Qed.

Lemma toc_loop_blocks rs :
  forall idx,
    for_enumerate toc_entry idx (List.map VDict rs)
    = Ok (flat_map toc_block (headings_from idx rs)).
Proof.
  induction rs as [|r rs IH]; intros idx; [reflexivity|].
  cbn [List.map for_enumerate]. rewrite toc_entry_block, IH. reflexivity.
Qed.

Lemma section_block_of idx r :
  section idx (VDict r)
  = (body <- section_body r ;; Ok (section_block (record_heading idx r, body))).
Proof. reflexivity. Qed.

Lemma sections_loop_blocks rs :
  forall idx,
    for_enumerate section idx (List.map VDict rs)
    = (bodies <- mapM section_body rs ;;
       Ok (flat_map section_block (combine (headings_from idx rs) bodies))).
Proof.
  induction rs as [|r rs IH]; intros idx; [reflexivity|].
  cbn [List.map for_enumerate mapM]. rewrite section_block_of, IH, headings_from_cons.
  destruct (section_body r) as [body|e]; [|reflexivity].
  cbn [bind]. destruct (mapM section_body rs) as [bodies|e]; reflexivity.
Qed.

Lemma or_records rs :
  Py.or (VList (List.map VDict rs)) (VList []) = VList (List.map VDict rs).
Proof. destruct rs; reflexivity. Qed.

(** The output for a document whose tests are the records [rs]. *)
Lemma build_markdown_records doc desc rs :
  Py.get doc "atomic_tests" = VList (List.map VDict rs) ->
  build_markdown doc desc
  = (bodies <- mapM section_body rs ;;
     Ok (finish (layout (header_lines doc desc) (headings_from 1 rs) bodies))).
Proof.
  intros Hts. unfold build_markdown. rewrite Hts, or_records.
  cbn [Py.iter bind]. rewrite toc_loop_blocks, sections_loop_blocks.
  cbn [bind]. destruct (mapM section_body rs) as [bodies|e]; [|reflexivity].
  cbn [bind]. unfold layout. rewrite <- !List.app_assoc. reflexivity.
Qed.

Lemma mapM_length {A B : Type} (f : A -> result B) l :
  forall bs, mapM f l = Ok bs -> List.length bs = List.length l.
Proof.
  induction l as [|a l IH]; intros bs H; simpl in H.
  - injection H as <-. reflexivity.
  - destruct (f a); [|discriminate]. simpl in H.
    destruct (mapM f l) as [bs'|]; [|discriminate].
    injection H as <-. simpl. rewrite (IH bs' eq_refl). reflexivity.
Qed.

Lemma records_render rs :
  forallb record_ok (List.map VDict rs) = true ->
  exists bodies, mapM section_body rs = Ok bodies /\ List.length bodies = List.length rs.
Proof.
  intros Hok.
  assert (H : is_ok (mapM section_body rs) = true).
  { rewrite is_ok_mapM. rewrite forallb_map in Hok.
    rewrite <- Hok. apply forallb_ext, section_body_ok. }
  destruct (mapM section_body rs) as [bodies|] eqn:E; [|discriminate].
  exists bodies. split; [reflexivity|]. apply (mapM_length _ _ _ E).
Qed.

Lemma nth_error_combine {A B : Type} (l : list A) (l' : list B) i a :
  List.length l' = List.length l -> nth_error l i = Some a ->
  exists b, nth_error (combine l l') i = Some (a, b).
Proof.
  revert l' i. induction l as [|x l IH]; intros [|y l'] [|i] Hlen H;
    try discriminate; simpl in *.
  - injection H as ->. exists y. reflexivity.
  - apply (IH l' i); [lia|exact H].
Qed.

(** The blocks of the table of contents and of the sections in the
    output for a document whose tests are the records [rs]. *)
Lemma build_markdown_blocks doc desc rs out :
  Py.get doc "atomic_tests" = VList (List.map VDict rs) ->
  build_markdown doc desc = Ok out ->
  exists tocs secs : list (list string),
    out = finish (header_lines doc desc ++ List.concat tocs ++ [""; "<br/>"; ""]
                    ++ List.concat secs ++ ["<br/>"])%list
    /\ List.length tocs = List.length rs
    /\ List.length secs = List.length rs
    /\ forall i r,
        nth_error rs i = Some r ->
        nth_error tocs i
        = Some ["- [" ++ record_heading (S i) r ++ "](#"
                  ++ slugify_github_anchor (record_heading (S i) r) ++ ")"; ""]
        /\ exists body, nth_error secs i = Some (("## " ++ record_heading (S i) r) :: body).
Proof.
  intros Hts Hout. rewrite (build_markdown_records _ _ _ Hts) in Hout.
  destruct (mapM section_body rs) as [bodies|] eqn:Hbodies; [|discriminate].
  cbn [bind] in Hout. injection Hout as <-.
  pose proof (mapM_length _ _ _ Hbodies) as Hlen.
  exists (List.map toc_block (headings_from 1 rs)),
         (List.map section_block (combine (headings_from 1 rs) bodies)).
  split; [|split; [|split]].
  - unfold layout. rewrite !flat_map_concat_map. reflexivity.
  - rewrite length_map. apply headings_from_length.
  - rewrite length_map, length_combine, headings_from_length, Hlen. apply Nat.min_id.
  - intros i r Hr. pose proof (headings_from_nth 1 rs i r Hr) as Hh. cbn [Nat.add] in Hh.
    split.
    + rewrite nth_error_map, Hh. reflexivity.
    + destruct (nth_error_combine (headings_from 1 rs) bodies i
                  (record_heading (S i) r)) as [body Hb];
        [rewrite headings_from_length; exact Hlen|exact Hh|].
      exists body. rewrite nth_error_map, Hb. reflexivity.
Qed.

(** ** The default name of a record *)

Lemma digits_nonspace d :
  Str.all (fun c => negb (Char.is_space c)) (NilEmpty.string_of_uint d) = true.
Proof. induction d; simpl; auto. Qed.

Lemma strip_default_name idx : Str.strip (default_name idx) = default_name idx.
Proof.
  unfold Str.strip, default_name, Py.dec_nat.
  change (Str.lstrip ("Atomic Test #" ++ ?d)) with ("Atomic Test #" ++ d).
  change ("Atomic Test #" ++ ?d) with ("Atomic Test " ++ String "#" d).
  assert (E : forall d, Str.rstrip (String "#" (NilEmpty.string_of_uint d))
                        = String "#" (NilEmpty.string_of_uint d)).
  { intros d. rewrite StripFacts.rstrip_cons_keep by reflexivity.
    rewrite StrFacts.rstrip_fixed by apply digits_nonspace. reflexivity. }
  rewrite StripFacts.rstrip_app_keep; rewrite E; [reflexivity|discriminate].
Qed.

Lemma record_name_absent idx r :
  Py.lookup r "name" = None -> record_name idx r = default_name idx.
Proof.
  intros H. unfold record_name, Py.get_default. rewrite H.
  apply strip_default_name.
Qed.

Lemma record_heading_absent idx r :
  Py.lookup r "name" = None ->
  record_heading idx r
  = "Atomic Test #" ++ Py.dec_nat idx ++ " - Atomic Test #" ++ Py.dec_nat idx.
Proof. intros H. unfold record_heading. rewrite (record_name_absent _ _ H). reflexivity. Qed.

(** A name that is given as null is not absent: it renders as the empty
    text. *)
Example null_name_is_empty : record_name 1 [(SStr "name", VNone)] = "".
Proof. reflexivity. Qed.

(** ** The end of the output *)

Lemma last_char_some s : s <> "" -> exists c, last_char s = Some c.
Proof.
  induction s as [|x s IH]; [contradiction|]. intros _.
  destruct s as [|y s']; [exists x; reflexivity|].
  destruct IH as [c Hc]; [discriminate|]. exists c. exact Hc.
Qed.

Lemma join_starts sep c x rest :
  exists y, Str.join sep (String c x :: rest) = String c y.
Proof. destruct rest; simpl; eauto. Qed.

Lemma finish_ends c x rest :
  Char.is_space c = false ->
  exists body c',
    finish (String c x :: rest) = body ++ String c' (Str.of_char Char.newline)
    /\ Char.is_space c' = false.
Proof.
  intros Hc. unfold finish.
  destruct (join_starts (Str.of_char Char.newline) c x rest) as [y ->].
  rewrite (StripFacts.rstrip_cons_keep _ _ Hc).
  destruct (last_char_some (String c (Str.rstrip y))) as [c' Hc']; [discriminate|].
  destruct (StripFacts.last_char_split _ _ Hc') as [body Hbody].
  exists body, c'. split.
  - rewrite Hbody, StrFacts.app_assoc. reflexivity.
  - rewrite <- (StripFacts.rstrip_cons_keep _ _ Hc) in Hc'.
    apply (StripFacts.rstrip_last _ _ Hc').
Qed.

(** C6: whatever the document and the description, the returned string
    ends with one newline, and the character before it is not white
    space, so that no blank line and no second newline precedes it. *)
Theorem output_ends_with_one_newline (doc : pydict) (desc : option string) (out : string) :
  build_markdown doc desc = Ok out ->
  exists body c,
    out = body ++ String c (Str.of_char Char.newline) /\ Char.is_space c = false.
Proof.
  unfold build_markdown. intros H.
  destruct (Py.iter _) as [tests|]; [|discriminate]. cbn [bind] in H.
  destruct (for_enumerate toc_entry 1 tests) as [toc|]; [|discriminate]. cbn [bind] in H.
  destruct (for_enumerate section 1 tests) as [secs|]; [|discriminate]. cbn [bind] in H.
  injection H as <-. unfold header_lines. cbn [app append].
  apply finish_ends. reflexivity.
Qed.

Lemma output_ends_with_one_newline_witness :
  exists body c,
    sample_output = body ++ String c (Str.of_char Char.newline) /\ Char.is_space c = false.
Proof.
  apply (output_ends_with_one_newline sample_doc None sample_output).
  vm_compute. reflexivity.
Defined.

(** ** Missing fields *)

Lemma lookup_without k d k' :
  Py.lookup (without k d) k' = if (k' =? k)%string then None else Py.lookup d k'.
Proof.
  induction d as [|[a v] d IH]; simpl; [destruct (k' =? k)%string; reflexivity|].
  destruct (Py.key_is k a) eqn:Ha; simpl.
  - rewrite IH. destruct (k' =? k)%string eqn:E; [reflexivity|].
    destruct a; try discriminate. simpl in Ha |- *.
    apply String.eqb_eq in Ha. subst s.
    rewrite String.eqb_sym, E. reflexivity.
  - rewrite IH. destruct (Py.key_is k' a) eqn:Ha'; [|reflexivity].
    destruct (k' =? k)%string eqn:E; [|reflexivity].
    apply String.eqb_eq in E. subst k'. congruence.
Qed.

Lemma get_without k d k' :
  Py.get (without k d) k' = if (k' =? k)%string then VNone else Py.get d k'.
Proof.
  unfold Py.get, Py.get_default. rewrite lookup_without.
  destruct (k' =? k)%string; reflexivity.
Qed.

Lemma record_without_ok k t : record_ok t = true -> record_ok (record_without k t) = true.
Proof.
  destruct t as [a|l|r]; try discriminate. unfold record_without, record_ok.
  rewrite !get_without.
  destruct ("supported_platforms" =? k)%string, ("input_arguments" =? k)%string;
    intros H; apply andb_true_iff in H as [H1 H2];
    rewrite ?H1, ?H2; reflexivity.
Qed.

Lemma get_records_without k doc :
  Py.get (records_without k doc) "atomic_tests"
  = match Py.get doc "atomic_tests" with
    | VList l => VList (List.map (record_without k) l)
    | v => v
    end.
Proof.
  unfold Py.get, Py.get_default.
  induction doc as [|[a v] doc IH]; [reflexivity|].
  simpl. destruct (Py.key_is "atomic_tests" a) eqn:Ha; simpl; rewrite Ha; [reflexivity|].
  exact IH.
Qed.

Lemma records_without_ok k doc : doc_ok doc = true -> doc_ok (records_without k doc) = true.
Proof.
  unfold doc_ok. rewrite get_records_without.
  destruct (Py.get doc "atomic_tests") as [a|l|d]; try (intros H; exact H).
  unfold tests_ok. destruct l as [|t l]; [reflexivity|].
  change (forallb record_ok (t :: l) = true ->
          forallb record_ok (List.map (record_without k) (t :: l)) = true).
  intros H. rewrite forallb_map. rewrite forallb_forall in H |- *.
  intros x Hx. apply record_without_ok, H, Hx.
Qed.

(** C5, as stated, fails: a top-level mapping whose record is a plain
    string, or whose record gives a parameter as a plain string, makes
    the renderer raise. *)
Lemma renderer_raises_on_untyped_record :
  build_markdown string_record_doc None = Err AttributeError
  /\ build_markdown string_parameter_doc None = Err AttributeError
  /\ ~ (exists md, build_markdown string_record_doc None = Ok md).
Proof.
  split; [reflexivity|]. split; [reflexivity|].
  intros [md H]. vm_compute in H. discriminate.
Qed.

(** ** The entry point *)

Section MainFacts.

Variable resolve : string -> string.
Variable with_suffix_md : string -> string.
Variable safe_load : string -> result value.
Variable fetch_mitre_description : string -> option string.

(** C8: when the text of the input file does not load as a mapping,
    the run ends in an error and leaves the file store and the output
    as they were; when the text loads as something else than a
    mapping, the error is the exit with the message of the program. *)
Theorem main_rejects_non_mapping (a : args) (w : world) (text : string) :
  files w (resolve (yaml_file a)) = Some text ->
  parses_to_mapping (safe_load text) = false ->
  exists e,
    main resolve with_suffix_md safe_load fetch_mitre_description a w = (Err e, w)
    /\ forall v, safe_load text = Ok v ->
                 e = SystemExit "YAML did not parse into an object.".
Proof.
  intros Hfile Hload. unfold main, io_bind, read_text, io_lift.
  rewrite Hfile. destruct (safe_load text) as [v|e] eqn:E.
  - destruct v as [x|l|d]; [| |discriminate];
      (eexists; split; [reflexivity|reflexivity]).
  - exists e. split; [reflexivity|]. intros v Hv. discriminate.
Qed.

(** An unreadable input file ends the run the same way. *)
Lemma main_unreadable_input a w :
  files w (resolve (yaml_file a)) = None ->
  main resolve with_suffix_md safe_load fetch_mitre_description a w
  = (Err FileNotFoundError, w).
Proof. intros H. unfold main, io_bind, read_text. rewrite H. reflexivity. Qed.

End MainFacts.

Lemma main_rejects_non_mapping_witness :
  exists e,
    main (fun p => p) sample_with_suffix_md sample_loader sample_fetch
      sample_args (world_with "- tests")
    = (Err e, world_with "- tests")
    /\ forall v, sample_loader "- tests" = Ok v ->
                 e = SystemExit "YAML did not parse into an object.".
Proof.
  apply (main_rejects_non_mapping (fun p => p) sample_with_suffix_md sample_loader
           sample_fetch sample_args (world_with "- tests") "- tests"); reflexivity.
Defined.

(** On a mapping the same run writes the rendered document and reports
    it. *)
Example main_writes_on_mapping :
  exists md w',
    main (fun p => p) sample_with_suffix_md sample_loader sample_fetch
      sample_args (world_with "attack_technique: T1003")
    = (Ok tt, w')
    /\ build_markdown sample_doc None = Ok md
    /\ files w' "T1003.md" = Some md
    /\ stdout w' = ["Wrote: T1003.md"].
Proof.
  do 2 eexists. repeat split; vm_compute; reflexivity.
Qed.

(** * Further properties *)

(** ** More facts on characters and string primitives *)

Lemma slug_char_safe c : slug_char c = true -> anchor_safe c = true.
Proof. each_byte c. Qed.

Lemma space_lower c : Char.is_space (Char.lower c) = Char.is_space c.
Proof. each_byte c. Qed.

Lemma space_upper c : Char.is_space (Char.upper c) = Char.is_space c.
Proof. each_byte c. Qed.

Lemma lower_upper c : Char.lower (Char.upper c) = Char.lower c.
Proof. each_byte c. Qed.

Lemma lower_lower c : Char.lower (Char.lower c) = Char.lower c.
Proof. each_byte c. Qed.

Lemma upper_upper c : Char.upper (Char.upper c) = Char.upper c.
Proof. each_byte c. Qed.

Lemma digit_facts c :
  Char.is_digit c = true ->
  Char.is_space c = false /\ is_hyphen c = false
  /\ anchor_char c = true /\ lower_fixed c = true.
Proof. each_byte c; intros _; repeat split. Qed.

Module MoreStrFacts.

Lemma map_app f s t : Str.map f (s ++ t) = Str.map f s ++ Str.map f t.
Proof. induction s as [|c s IH]; simpl; [|rewrite IH]; reflexivity. Qed.

Lemma map_map f g s : Str.map f (Str.map g s) = Str.map (fun c => f (g c)) s.
Proof. induction s as [|c s IH]; simpl; [|rewrite IH]; reflexivity. Qed.

Lemma map_ext f g s : (forall c, f c = g c) -> Str.map f s = Str.map g s.
Proof. intros H. induction s as [|c s IH]; simpl; [|rewrite H, IH]; reflexivity. Qed.

Lemma filter_app keep s t :
  Str.filter keep (s ++ t) = Str.filter keep s ++ Str.filter keep t.
Proof.
  induction s as [|c s IH]; simpl; [reflexivity|].
  rewrite IH. destruct (keep c); reflexivity.
Qed.

Lemma lstrip_map f s :
  (forall c, Char.is_space (f c) = Char.is_space c) ->
  Str.lstrip (Str.map f s) = Str.map f (Str.lstrip s).
Proof.
  intros H. induction s as [|c s IH]; simpl; [reflexivity|].
  rewrite H. destruct (Char.is_space c); [exact IH|reflexivity].
Qed.

Lemma rstrip_map f s :
  (forall c, Char.is_space (f c) = Char.is_space c) ->
  Str.rstrip (Str.map f s) = Str.map f (Str.rstrip s).
Proof.
  intros H. induction s as [|c s IH]; simpl; [reflexivity|].
  rewrite IH, H. destruct (Str.rstrip s); simpl; [|reflexivity].
  destruct (Char.is_space c); reflexivity.
Qed.

Lemma strip_map f s :
  (forall c, Char.is_space (f c) = Char.is_space c) ->
  Str.strip (Str.map f s) = Str.map f (Str.strip s).
Proof. intros H. unfold Str.strip. rewrite lstrip_map, rstrip_map; auto. Qed.

Lemma rstrip_cons_nonempty c t y r :
  Str.rstrip t = String y r -> Str.rstrip (String c t) = String c (String y r).
Proof. intros H. simpl. rewrite H. reflexivity. Qed.

Lemma rstrip_idempotent s : Str.rstrip (Str.rstrip s) = Str.rstrip s.
Proof.
  induction s as [|c s IH]; simpl; [reflexivity|].
  destruct (Str.rstrip s) as [|y r] eqn:E.
  - destruct (Char.is_space c) eqn:Hc; simpl; [|rewrite Hc]; reflexivity.
  - apply rstrip_cons_nonempty, IH.
Qed.

(** The left trim of a string is empty or starts with a kept character. *)
Lemma lstrip_head s :
  match Str.lstrip s with
  | EmptyString => True
  | String c _ => Char.is_space c = false
  end.
Proof.
  induction s as [|c s IH]; simpl; [exact I|].
  destruct (Char.is_space c) eqn:Hc; [exact IH|exact Hc].
Qed.

Lemma lstrip_rstrip_head s :
  match s with EmptyString => True | String c _ => Char.is_space c = false end ->
  Str.lstrip (Str.rstrip s) = Str.rstrip s.
Proof.
  destruct s as [|c s]; [reflexivity|]. intros Hc.
  rewrite (StripFacts.rstrip_cons_keep _ _ Hc). simpl. rewrite Hc. reflexivity.
Qed.

Lemma strip_idempotent s : Str.strip (Str.strip s) = Str.strip s.
Proof.
  unfold Str.strip. rewrite (lstrip_rstrip_head _ (lstrip_head s)).
  apply rstrip_idempotent.
Qed.

Lemma strip_trimmed s : trimmed (Str.strip s) = true.
Proof.
  unfold trimmed, Str.strip, not_space. apply andb_true_iff. split.
  - pose proof (lstrip_head s) as H. destruct (Str.lstrip s) as [|c t]; [reflexivity|].
    rewrite (StripFacts.rstrip_cons_keep _ _ H), H. reflexivity.
  - destruct (last_char (Str.rstrip (Str.lstrip s))) as [c|] eqn:E; [|reflexivity].
    rewrite (StripFacts.rstrip_last _ _ E). reflexivity.
Qed.

Lemma rstrip_trimmed s :
  match last_char s with Some c => not_space c | None => true end = true ->
  Str.rstrip s = s.
Proof.
  induction s as [|c s IH]; [reflexivity|].
  destruct s as [|y s'].
  - unfold not_space. simpl. intros H. apply negb_true_iff in H. rewrite H. reflexivity.
  - intros H. change (last_char (String c (String y s'))) with (last_char (String y s')) in H.
    apply rstrip_cons_nonempty, IH, H.
Qed.

Lemma trimmed_strip s : trimmed s = true -> Str.strip s = s.
Proof.
  unfold trimmed. intros H. apply andb_true_iff in H as [Hh Hl].
  unfold Str.strip. assert (E : Str.lstrip s = s).
  { destruct s as [|c s]; [reflexivity|]. simpl.
    apply negb_true_iff in Hh. rewrite Hh. reflexivity. }
  rewrite E. apply rstrip_trimmed, Hl.
Qed.

Lemma lstrip_blank s : Str.all Char.is_space s = true -> Str.lstrip s = "".
Proof.
  induction s as [|c s IH]; simpl; [reflexivity|].
  intros H. apply andb_true_iff in H as [Hc Hs]. rewrite Hc. apply IH, Hs.
Qed.

Lemma sub_runs_cons2 cls rep x y t :
  Str.sub_runs cls rep (String x (String y t))
  = if cls x
    then if cls y
         then Str.sub_runs cls rep (String y t)
         else rep ++ Str.sub_runs cls rep (String y t)
    else String x (Str.sub_runs cls rep (String y t)).
Proof. reflexivity. Qed.

Lemma sub_runs_app_keep cls rep a c b :
  cls c = false ->
  Str.sub_runs cls rep (a ++ String c b)
  = Str.sub_runs cls rep a ++ String c (Str.sub_runs cls rep b).
Proof.
  intros Hc. induction a as [|x a IH].
  - cbn [append Str.sub_runs]. rewrite Hc. reflexivity.
  - destruct a as [|y a'].
    + cbn [append Str.sub_runs]. rewrite Hc. destruct (cls x); reflexivity.
    + change (String x (String y a') ++ String c b)
        with (String x (String y (a' ++ String c b))).
      change (String y a' ++ String c b) with (String y (a' ++ String c b)) in IH.
      rewrite (sub_runs_cons2 cls rep x y (a' ++ String c b)).
      rewrite (sub_runs_cons2 cls rep x y a'), IH.
      destruct (cls x), (cls y); try reflexivity.
      symmetry. apply StrFacts.app_assoc.
Qed.

Lemma sub_runs_app_none cls rep a b :
  Str.all (fun c => negb (cls c)) a = true ->
  Str.sub_runs cls rep (a ++ b) = a ++ Str.sub_runs cls rep b.
Proof.
  induction a as [|x a IH]; [reflexivity|].
  intros H. simpl in H. apply andb_true_iff in H as [Hx Ha].
  apply negb_true_iff in Hx.
  change (String x a ++ b) with (String x (a ++ b)).
  cbn [Str.sub_runs]. rewrite Hx, (IH Ha). reflexivity.
Qed.

Lemma sub_runs_starts cls d w :
  forall c, cls c = true ->
            exists v, Str.sub_runs cls (Str.of_char d) (String c w) = String d v.
Proof.
  induction w as [|y w IH]; intros c Hc.
  - exists "". cbn [Str.sub_runs]. rewrite Hc. reflexivity.
  - rewrite sub_runs_cons2, Hc. destruct (cls y) eqn:Hy.
    + destruct (IH y Hy) as [v Hv]. exists v. exact Hv.
    + eexists. reflexivity.
Qed.

Lemma app_inv_head p s t : p ++ s = p ++ t -> s = t.
Proof. induction p as [|c p IH]; simpl; intros H; [exact H|]. injection H as H. auto. Qed.

End MoreStrFacts.

(** ** The anchor slugger, continued *)

(** X1: the slug of an ASCII heading holds only digits, lower-case
    letters, underscores and hyphens, and never two hyphens in a row; in
    particular no white space, no capital and no punctuation mark
    survives. *)
Theorem slug_alphabet (s : string) :
  ascii_text s = true ->
  Str.all anchor_safe (slugify_github_anchor s) = true
  /\ Str.all not_space (slugify_github_anchor s) = true
  /\ Str.no_adjacent is_hyphen (slugify_github_anchor s) = true.
Proof.
  intros _. split; [|split].
  - apply StrFacts.all_impl with (p := slug_char); [apply slug_char_safe|apply slug_chars].
  - apply StrFacts.all_impl with (p := slug_char); [apply slug_char_nonspace|apply slug_chars].
  - apply slug_no_adjacent_hyphens.
Qed.

Lemma slug_alphabet_witness :
  Str.all anchor_safe (slugify_github_anchor "Dump LSASS.exe Memory (x64)!") = true
  /\ Str.all not_space (slugify_github_anchor "Dump LSASS.exe Memory (x64)!") = true
  /\ Str.no_adjacent is_hyphen (slugify_github_anchor "Dump LSASS.exe Memory (x64)!") = true.
Proof. apply (slug_alphabet "Dump LSASS.exe Memory (x64)!"). reflexivity. Defined.

(** X2: a heading made of white space only, the empty heading included,
    has the empty slug. *)
Theorem slug_of_blank (s : string) :
  Str.all Char.is_space s = true -> slugify_github_anchor s = "".
Proof.
  intros H. unfold slugify_github_anchor, Str.strip.
  rewrite (MoreStrFacts.lstrip_blank _ H). reflexivity.
Qed.

Lemma slug_of_blank_witness : slugify_github_anchor "   " = "".
Proof. apply (slug_of_blank "   "). reflexivity. Defined.

(** X3: the slug does not depend on white space around the heading,
    and the slug of an ASCII heading does not depend on the case of its
    letters. *)
Theorem slug_ignores_case_and_margins (s : string) :
  slugify_github_anchor (Str.strip s) = slugify_github_anchor s
  /\ (ascii_text s = true ->
      slugify_github_anchor (Str.upper s) = slugify_github_anchor s
      /\ slugify_github_anchor (Str.lower s) = slugify_github_anchor s).
Proof.
  unfold slugify_github_anchor, Str.upper, Str.lower. split; [|intros _; split].
  - rewrite MoreStrFacts.strip_idempotent. reflexivity.
  - rewrite (MoreStrFacts.strip_map _ _ space_upper), MoreStrFacts.map_map.
    rewrite (MoreStrFacts.map_ext _ _ _ lower_upper). reflexivity.
  - rewrite (MoreStrFacts.strip_map _ _ space_lower), MoreStrFacts.map_map.
    rewrite (MoreStrFacts.map_ext _ _ _ lower_lower). reflexivity.
Qed.

Lemma slug_ignores_case_and_margins_witness :
  slugify_github_anchor (Str.upper " Atomic Test #1 - Dump ")
  = slugify_github_anchor " Atomic Test #1 - Dump "
  /\ slugify_github_anchor (Str.lower " Atomic Test #1 - Dump ")
     = slugify_github_anchor " Atomic Test #1 - Dump ".
Proof.
  apply (proj2 (slug_ignores_case_and_margins " Atomic Test #1 - Dump ")). reflexivity.
Defined.

(** *** Anchors of section headings *)

Lemma uint_digits d : Str.all Char.is_digit (NilEmpty.string_of_uint d) = true.
Proof. induction d; simpl; auto. Qed.

Lemma dec_nat_nonempty n : exists c d, Py.dec_nat n = String c d.
Proof.
  unfold Py.dec_nat. destruct (Nat.to_uint n) eqn:E; simpl; eauto.
  exfalso. apply (DecimalFacts.unorm_nonnil (Nat.to_uint n)).
  rewrite <- DecimalNat.Unsigned.to_of, DecimalNat.Unsigned.of_to. exact E.
Qed.

Lemma dec_nat_inj n m : Py.dec_nat n = Py.dec_nat m -> n = m.
Proof.
  unfold Py.dec_nat. intros H. apply DecimalNat.Unsigned.to_uint_inj.
  apply (f_equal NilEmpty.uint_of_string) in H.
  rewrite !NilEmpty.usu in H. injection H as H. exact H.
Qed.

Lemma digits_all (p : ascii -> bool) d :
  (forall c, Char.is_digit c = true -> p c = true) ->
  Str.all Char.is_digit d = true -> Str.all p d = true.
Proof. intros H. apply StrFacts.all_impl, H. Qed.

(** Two digit strings followed by a hyphen that start equal texts are
    equal. *)
Lemma digits_prefix_unique d1 :
  forall d2 v1 v2,
    Str.all Char.is_digit d1 = true -> Str.all Char.is_digit d2 = true ->
    d1 ++ String "-" v1 = d2 ++ String "-" v2 -> d1 = d2.
Proof.
  induction d1 as [|c1 d1 IH]; intros [|c2 d2] v1 v2 H1 H2 E; simpl in *.
  - reflexivity.
  - injection E as <- _. apply andb_true_iff in H2 as [H2 _]. discriminate.
  - injection E as -> _. apply andb_true_iff in H1 as [H1 _]. discriminate.
  - injection E as -> E. apply andb_true_iff in H1 as [_ H1].
    apply andb_true_iff in H2 as [_ H2]. rewrite (IH d2 v1 v2 H1 H2 E). reflexivity.
Qed.

Lemma heading_strip d n :
  Str.strip ("Atomic Test #" ++ d ++ " - " ++ n)
  = ("Atomic Test #" ++ d ++ " ") ++ String "-" (Str.rstrip (String " " n)).
Proof.
  unfold Str.strip.
  change (Str.lstrip ("Atomic Test #" ++ ?x)) with ("Atomic Test #" ++ x).
  assert (E : "Atomic Test #" ++ d ++ " - " ++ n
              = ("Atomic Test #" ++ d ++ " ") ++ String "-" (String " " n))
    by (rewrite !StrFacts.app_assoc; reflexivity).
  rewrite E, StripFacts.rstrip_app_keep;
    rewrite StripFacts.rstrip_cons_keep by reflexivity; [reflexivity|discriminate].
Qed.

(** The slug of a section heading starts with the display index between
    hyphens. *)
Lemma heading_slug c0 d' n :
  Str.all Char.is_digit (String c0 d') = true ->
  exists v,
    slugify_github_anchor ("Atomic Test #" ++ String c0 d' ++ " - " ++ n)
    = "atomic-test-" ++ String c0 d' ++ String "-" v.
Proof.
  intros Hd. pose proof Hd as Hd0. simpl in Hd0. apply andb_true_iff in Hd0 as [Hc0 Hd'].
  destruct (digit_facts c0 Hc0) as (Hsp & Hhy & _ & _).
  unfold slugify_github_anchor. rewrite filter_has_no_dot, heading_strip.
  set (D := String c0 d') in *.
  (* lower *)
  unfold Str.lower. rewrite MoreStrFacts.map_app.
  assert (El : Str.map Char.lower ("Atomic Test #" ++ D ++ " ") = "atomic test #" ++ D ++ " ").
  { rewrite (MoreStrFacts.map_app _ "Atomic Test #"), (MoreStrFacts.map_app _ D).
    rewrite (StrFacts.map_fixed Char.lower D); [reflexivity|].
    apply (digits_all lower_fixed); [|exact Hd]. intros c Hc. apply (digit_facts c Hc). }
  rewrite El. clear El.
  change (Str.map Char.lower (String "-" ?t)) with (String "-" (Str.map Char.lower t)).
  (* filter *)
  rewrite MoreStrFacts.filter_app.
  assert (Ef : Str.filter anchor_char ("atomic test #" ++ D ++ " ") = "atomic test " ++ D ++ " ").
  { rewrite (MoreStrFacts.filter_app _ "atomic test #"), (MoreStrFacts.filter_app _ D).
    rewrite (StrFacts.filter_fixed anchor_char D); [reflexivity|].
    apply (digits_all anchor_char); [|exact Hd]. intros c Hc. apply (digit_facts c Hc). }
  rewrite Ef. clear Ef.
  change (Str.filter anchor_char (String "-" ?t)) with (String "-" (Str.filter anchor_char t)).
  set (U := Str.filter anchor_char _).
  (* white space *)
  rewrite (MoreStrFacts.sub_runs_app_keep Char.is_space) by reflexivity.
  assert (Ew : Str.sub_runs Char.is_space "-" ("atomic test " ++ D ++ " ")
               = "atomic-test-" ++ String c0 (d' ++ "-")).
  { change ("atomic test " ++ D ++ " ") with ("atomic test " ++ String c0 (d' ++ " ")).
    rewrite (MoreStrFacts.sub_runs_app_keep Char.is_space) by exact Hsp.
    rewrite MoreStrFacts.sub_runs_app_none; [reflexivity|].
    apply (digits_all (fun c => negb (Char.is_space c))); [|exact Hd'].
    intros c Hc. destruct (digit_facts c Hc) as [-> _]. reflexivity. }
  rewrite Ew. clear Ew. set (W := Str.sub_runs Char.is_space "-" U).
  (* hyphens *)
  assert (Eh : ("atomic-test-" ++ String c0 (d' ++ "-")) ++ String "-" W
               = "atomic-test-" ++ String c0 (d' ++ String "-" (String "-" W))).
  { rewrite StrFacts.app_assoc. cbn [append]. rewrite StrFacts.app_assoc. reflexivity. }
  rewrite Eh. clear Eh.
  rewrite (MoreStrFacts.sub_runs_app_keep is_hyphen) by exact Hhy.
  rewrite MoreStrFacts.sub_runs_app_none.
  - destruct (MoreStrFacts.sub_runs_starts is_hyphen "-" (String "-" W) "-" eq_refl) as [v Hv].
    exists v. change (Str.of_char "-") with "-" in Hv. rewrite Hv. reflexivity.
  - apply (digits_all (fun c => negb (is_hyphen c))); [|exact Hd'].
    intros c Hc. destruct (digit_facts c Hc) as (_ & -> & _). reflexivity.
Qed.

(** X4: the anchor of a section heading starts with "atomic-test-", the
    display index and a hyphen, so that the sections of two different
    positions never share an anchor, whatever their names. *)
Theorem anchors_of_positions_distinct (i j : nat) (r1 r2 : pydict) :
  slugify_github_anchor (record_heading i r1) = slugify_github_anchor (record_heading j r2) ->
  i = j
  /\ exists v, slugify_github_anchor (record_heading i r1)
               = "atomic-test-" ++ Py.dec_nat i ++ String "-" v.
Proof.
  unfold record_heading. intros E.
  destruct (dec_nat_nonempty i) as (ci & di & Hi).
  destruct (dec_nat_nonempty j) as (cj & dj & Hj).
  pose proof (uint_digits (Nat.to_uint i)) as Di. fold (Py.dec_nat i) in Di.
  pose proof (uint_digits (Nat.to_uint j)) as Dj. fold (Py.dec_nat j) in Dj.
  rewrite Hi in *. rewrite Hj in *.
  destruct (heading_slug ci di (record_name i r1) Di) as [v1 E1].
  destruct (heading_slug cj dj (record_name j r2) Dj) as [v2 E2].
  split; [|exists v1; exact E1].
  rewrite E1, E2 in E. apply MoreStrFacts.app_inv_head in E.
  apply dec_nat_inj. rewrite Hi, Hj.
  apply (digits_prefix_unique _ _ v1 v2 Di Dj E).
Qed.

Lemma anchors_of_positions_distinct_witness :
  2 = 2
  /\ exists v, slugify_github_anchor (record_heading 2 [(SStr "name", VStr "Dump LSASS")])
               = "atomic-test-" ++ Py.dec_nat 2 ++ String "-" v.
Proof.
  apply (anchors_of_positions_distinct 2 2
           [(SStr "name", VStr "Dump LSASS")] [(SStr "name", VStr "dump lsass!")]).
  vm_compute. reflexivity.
Defined.

(** ** The field escapers, continued *)

(** X5: the inline escaper gives a text with no white space at either
    end, and escaping its own output again changes nothing. *)
Theorem md_escape_inline_trims (s : value) :
  trimmed (md_escape_inline s) = true
  /\ md_escape_inline (VStr (md_escape_inline s)) = md_escape_inline s.
Proof.
  assert (H : md_escape_inline s = "" \/ md_escape_inline s = Str.strip (Py.str s)).
  { destruct s as [[]| |]; auto. }
  destruct H as [-> | ->]; [split; reflexivity|]. split.
  - apply MoreStrFacts.strip_trimmed.
  - apply MoreStrFacts.strip_idempotent.
Qed.

Lemma md_escape_table_encode (s : value) :
  md_escape_table s
  = match s with
    | VScalar SNone => ""
    | _ => cell_encode (Str.strip (Py.str s))
    end.
Proof. destruct s as [[]| |]; try reflexivity; apply escape_chain. Qed.

Lemma cell_entity_no_raw c : Str.all (fun x => negb (cell_raw x)) (cell_entity c) = true.
Proof. each_byte c. Qed.

Lemma cell_encode_no_raw s : Str.all (fun x => negb (cell_raw x)) (cell_encode s) = true.
Proof.
  induction s as [|c s IH]; [reflexivity|].
  cbn [cell_encode]. rewrite StrFacts.all_app, cell_entity_no_raw, IH. reflexivity.
Qed.

(** X6: whatever the value, the text of a table cell holds no angle
    bracket, no quote of either kind and no backslash. *)
Theorem md_escape_table_no_raw (s : value) :
  Str.all (fun c => negb (cell_raw c)) (md_escape_table s) = true.
Proof.
  rewrite md_escape_table_encode.
  destruct s as [[]| |]; try reflexivity; apply cell_encode_no_raw.
Qed.

Lemma cell_entity_inj c1 c2 r1 r2 :
  cell_entity c1 ++ r1 = cell_entity c2 ++ r2 -> c1 = c2 /\ r1 = r2.
Proof.
  unfold cell_entity, Char.dquote, Char.squote, Char.backslash, Str.of_char.
  repeat match goal with
         | |- context [(c1 =? ?k)%char] => destruct (Ascii.eqb_spec c1 k); cbv iota
         end;
    repeat match goal with
           | |- context [(c2 =? ?k)%char] => destruct (Ascii.eqb_spec c2 k); cbv iota
           end;
    cbn [append]; intros H; split; congruence.
Qed.

Lemma cell_encode_inj s1 : forall s2, cell_encode s1 = cell_encode s2 -> s1 = s2.
Proof.
  assert (Hne : forall c r, cell_entity c ++ r <> "").
  { intros c r. unfold cell_entity, Str.of_char.
    repeat match goal with
           | |- context [(c =? ?k)%char] => destruct (c =? k)%char
           end; discriminate. }
  induction s1 as [|c1 s1 IH]; intros [|c2 s2] H; cbn [cell_encode] in H.
  - reflexivity.
  - symmetry in H. destruct (Hne _ _ H).
  - destruct (Hne _ _ H).
  - apply cell_entity_inj in H as [-> H]. rewrite (IH _ H). reflexivity.
Qed.

(** X7: the table-cell escaper loses nothing but the white space around
    the text: two strings with the same cell text are equal once
    trimmed. *)
Theorem md_escape_table_injective (s1 s2 : string) :
  md_escape_table (VStr s1) = md_escape_table (VStr s2) -> Str.strip s1 = Str.strip s2.
Proof. rewrite !md_escape_table_encode. apply cell_encode_inj. Qed.

Lemma md_escape_table_injective_witness : Str.strip " a\b " = Str.strip "a\b".
Proof. apply (md_escape_table_injective " a\b " "a\b"). reflexivity. Defined.

Lemma cell_entity_plain c : cell_special c = false -> cell_entity c = Str.of_char c.
Proof. each_byte c. Qed.

Lemma cell_encode_plain s :
  Str.all (fun c => negb (cell_special c)) s = true -> cell_encode s = s.
Proof.
  induction s as [|c s IH]; [reflexivity|].
  intros H. simpl in H. apply andb_true_iff in H as [Hc Hs].
  apply negb_true_iff in Hc. cbn [cell_encode].
  rewrite (cell_entity_plain _ Hc), (IH Hs). reflexivity.
Qed.

(** X8: a text without white space at its ends and without any of the
    six special characters is its own table cell; the vertical bar in
    particular is left as it is. *)
Theorem md_escape_table_plain (s : string) :
  trimmed s = true ->
  Str.all (fun c => negb (cell_special c)) s = true ->
  md_escape_table (VStr s) = s /\ cell_special "|" = false.
Proof.
  intros Ht Hp. split; [|reflexivity].
  rewrite md_escape_table_encode. cbn [VStr Py.str Py.str_scalar].
  rewrite (MoreStrFacts.trimmed_strip _ Ht). apply cell_encode_plain, Hp.
Qed.

Lemma md_escape_table_plain_witness :
  md_escape_table (VStr "C:/tmp | out.txt") = "C:/tmp | out.txt" /\ cell_special "|" = false.
Proof. apply (md_escape_table_plain "C:/tmp | out.txt"); reflexivity. Defined.

(** ** The field formatters, continued *)

Lemma lower_strip_upper s :
  Str.lower (Str.strip (Str.upper s)) = Str.lower (Str.strip s).
Proof.
  unfold Str.lower, Str.upper.
  rewrite (MoreStrFacts.strip_map _ _ space_upper), MoreStrFacts.map_map.
  apply MoreStrFacts.map_ext, lower_upper.
Qed.

(** X9: the fence tag of any executor name is one of cmd, powershell,
    bash, sh and text; it does not depend on white space around the
    name; each tag is its own tag; and the tag of an ASCII name does not
    depend on the case of its letters. *)
Theorem code_fence_lang_tags (executor_name : string) :
  In (code_fence_lang executor_name) fence_tags
  /\ code_fence_lang (Str.strip executor_name) = code_fence_lang executor_name
  /\ code_fence_lang (code_fence_lang executor_name) = code_fence_lang executor_name
  /\ (ascii_text executor_name = true ->
      code_fence_lang (Str.upper executor_name) = code_fence_lang executor_name).
Proof.
  assert (Hin : In (code_fence_lang executor_name) fence_tags).
  { unfold code_fence_lang, fence_tags.
    repeat match goal with
           | |- context [if ?b then _ else _] => destruct b
           end; simpl; auto 6. }
  split; [exact Hin|]. split; [|split].
  - unfold code_fence_lang. rewrite MoreStrFacts.strip_idempotent. reflexivity.
  - unfold fence_tags in Hin. simpl in Hin.
    destruct Hin as [<-|[<-|[<-|[<-|[<-|[]]]]]]; reflexivity.
  - intros _. unfold code_fence_lang. rewrite lower_strip_upper. reflexivity.
Qed.

Lemma code_fence_lang_tags_witness :
  code_fence_lang (Str.upper " PowerShell ") = code_fence_lang " PowerShell ".
Proof.
  apply (proj2 (proj2 (proj2 (code_fence_lang_tags " PowerShell ")))). reflexivity.
Defined.

Lemma trimmed_upper_head c q :
  trimmed (String c q) = true -> trimmed (String (Char.upper c) q) = true.
Proof.
  unfold trimmed, not_space. rewrite space_upper.
  destruct q as [|y q']; [simpl; rewrite space_upper|]; auto.
Qed.

Lemma titlecase_idempotent p : titlecase (titlecase p) = titlecase p.
Proof.
  unfold titlecase at 2 3.
  destruct (Str.lower (Str.strip p) =? "macos")%string eqn:E; [reflexivity|].
  pose proof (MoreStrFacts.strip_trimmed p) as Ht.
  destruct (Str.strip p) as [|c q]; [reflexivity|].
  cbn [Str.first1 Str.from1 Str.upper Str.map Str.of_char append].
  unfold titlecase.
  rewrite (MoreStrFacts.trimmed_strip _ (trimmed_upper_head _ _ Ht)).
  assert (El : Str.lower (String (Char.upper c) q) = Str.lower (String c q)).
  { unfold Str.lower. cbn [Str.map]. rewrite lower_upper. reflexivity. }
  rewrite El, E.
  cbn [Str.first1 Str.from1 Str.upper Str.map Str.of_char append].
  rewrite upper_upper. reflexivity.
Qed.

(** X10: formatting a platform tag twice is formatting it once, so the
    platform line of formatted tags is the platform line of the tags. *)
Theorem fmt_supported_platforms_idempotent (platforms : list string) :
  fmt_supported_platforms (List.map titlecase platforms) = fmt_supported_platforms platforms
  /\ forall p, fmt_supported_platforms [fmt_supported_platforms [p]]
               = fmt_supported_platforms [p].
Proof.
  split.
  - destruct platforms as [|p ps]; [reflexivity|].
    unfold fmt_supported_platforms. cbn [List.map].
    rewrite titlecase_idempotent, List.map_map.
    rewrite (List.map_ext _ titlecase titlecase_idempotent). reflexivity.
  - intros p. cbn [fmt_supported_platforms List.map Str.join].
    apply titlecase_idempotent.
Qed.

(** ** The sections, continued *)

Lemma mapM_nth {A B : Type} (f : A -> result B) l :
  forall bs i a,
    mapM f l = Ok bs -> nth_error l i = Some a ->
    exists b, f a = Ok b /\ nth_error bs i = Some b.
Proof.
  induction l as [|x l IH]; intros bs i a H Hi; [destruct i; discriminate|].
  simpl in H. destruct (f x) as [b|] eqn:Ex; [|discriminate]. simpl in H.
  destruct (mapM f l) as [bs'|]; [|discriminate]. injection H as <-.
  destruct i as [|i]; simpl in Hi |- *.
  - injection Hi as <-. eauto.
  - apply (IH bs' i a eq_refl Hi).
Qed.

Lemma nth_error_middle {A : Type} (pre l post : list A) i :
  i < List.length l ->
  nth_error (pre ++ l ++ post)%list (List.length pre + i) = nth_error l i.
Proof.
  intros Hi. rewrite nth_error_app2 by lia.
  replace (List.length pre + i - List.length pre) with i by lia.
  apply nth_error_app1, Hi.
Qed.

(** X11: the inputs table of a mapping of n parameters is three header
    lines, n rows and two empty lines; the row of the i-th parameter, in
    insertion order, holds its name, description and type through the
    inline escaper and its default through the table-cell escaper, each
    read from the parameter's mapping (an absent or null parameter counts
    as the empty mapping). *)
Theorem inputs_table_rows (items : pydict) (lines : list string) :
  inputs_table items = Ok lines ->
  List.length lines = 5 + List.length items
  /\ firstn 3 lines
     = ["#### Inputs:";
        "| Name | Description | Type | Default Value |";
        "|------|-------------|------|---------------|"]
  /\ skipn (3 + List.length items) lines = [""; ""]
  /\ forall i k v,
      nth_error items i = Some (k, v) ->
      exists d,
        Py.or v (VDict []) = VDict d
        /\ nth_error lines (3 + i)
           = Some ("| " ++ md_escape_inline (VScalar k) ++ " | "
                     ++ md_escape_inline (Py.get d "description") ++ " | "
                     ++ md_escape_inline (Py.get d "type") ++ " | "
                     ++ md_escape_table (Py.get d "default") ++ "|").
Proof.
  unfold inputs_table. intros H.
  destruct (mapM input_row items) as [rows|] eqn:Hrows; [|discriminate].
  cbn [bind] in H. injection H as <-.
  pose proof (mapM_length _ _ _ Hrows) as Hlen.
  split; [|split; [reflexivity|split]].
  - cbn [app List.length]. rewrite length_app, Hlen. simpl. lia.
  - rewrite <- Hlen. cbn [app Nat.add skipn].
    rewrite skipn_app, skipn_all, Nat.sub_diag. reflexivity.
  - intros i k v Hi.
    destruct (mapM_nth _ _ _ _ _ Hrows Hi) as [row [Hrow Hnth]].
    unfold input_row in Hrow. cbn [fst snd] in Hrow.
    destruct (Py.or v (VDict [])) as [a|l|d]; try discriminate.
    exists d. split; [reflexivity|].
    cbn [Py.as_dict bind] in Hrow. injection Hrow as Hrow.
    transitivity (Some row); [|f_equal; symmetry; exact Hrow].
    rewrite <- Hnth.
    apply (nth_error_middle ["#### Inputs:"; "| Name | Description | Type | Default Value |";
                             "|------|-------------|------|---------------|"] rows [""; ""] i).
    apply nth_error_Some. rewrite Hnth. discriminate.
Qed.

Lemma inputs_table_rows_witness :
  List.length ["#### Inputs:"; "| Name | Description | Type | Default Value |";
               "|------|-------------|------|---------------|";
               "| path | where | path | C:&#92;tmp|"; "| n |  |  | |"; ""; ""]
  = 5 + 2
  /\ firstn 3 ["#### Inputs:"; "| Name | Description | Type | Default Value |";
               "|------|-------------|------|---------------|";
               "| path | where | path | C:&#92;tmp|"; "| n |  |  | |"; ""; ""]
     = ["#### Inputs:";
        "| Name | Description | Type | Default Value |";
        "|------|-------------|------|---------------|"]
  /\ skipn (3 + 2)
       ["#### Inputs:"; "| Name | Description | Type | Default Value |";
        "|------|-------------|------|---------------|";
        "| path | where | path | C:&#92;tmp|"; "| n |  |  | |"; ""; ""]
     = [""; ""]
  /\ forall i k v,
      nth_error
        [(SStr "path",
          VDict [(SStr "description", VStr "where"); (SStr "type", VStr "path");
                 (SStr "default", VStr "C:\tmp")]);
         (SStr "n", VNone)] i = Some (k, v) ->
      exists d,
        Py.or v (VDict []) = VDict d
        /\ nth_error
             ["#### Inputs:"; "| Name | Description | Type | Default Value |";
              "|------|-------------|------|---------------|";
              "| path | where | path | C:&#92;tmp|"; "| n |  |  | |"; ""; ""] (3 + i)
           = Some ("| " ++ md_escape_inline (VScalar k) ++ " | "
                     ++ md_escape_inline (Py.get d "description") ++ " | "
                     ++ md_escape_inline (Py.get d "type") ++ " | "
                     ++ md_escape_table (Py.get d "default") ++ "|").
Proof.
  apply (inputs_table_rows
           [(SStr "path",
             VDict [(SStr "description", VStr "where"); (SStr "type", VStr "path");
                    (SStr "default", VStr "C:\tmp")]);
            (SStr "n", VNone)]).
  vm_compute. reflexivity.
Defined.

(** X12: a parameters field that is absent, null, empty, or anything but
    a mapping gives no inputs table, and no error either. *)
Theorem no_inputs_table (input_arguments : value) :
  negb (Py.truthy input_arguments) || negb (Py.is_dict input_arguments) = true ->
  input_lines (Py.or input_arguments (VDict [])) = Ok [].
Proof.
  intros H. destruct (Py.truthy input_arguments) eqn:Ht.
  - rewrite (truthy_or _ _ Ht). destruct input_arguments as [a|l|d]; try reflexivity.
    discriminate.
  - rewrite (falsy_or _ _ Ht). reflexivity.
Qed.

Lemma no_inputs_table_witness :
  input_lines (Py.or (VList [VStr "path"]) (VDict [])) = Ok [].
Proof. apply (no_inputs_table (VList [VStr "path"])). reflexivity. Defined.

(** X13: an executor that is absent, null, empty, or anything but a
    mapping gives the generic commands heading and nothing else: no
    interpreter name, no command block, no cleanup block. *)
Theorem executor_not_a_mapping (executor : value) :
  negb (Py.truthy executor) || negb (Py.is_dict executor) = true ->
  executor_lines (Py.or executor (VDict [])) = ["#### Attack Commands:"; ""].
Proof.
  intros H. destruct (Py.truthy executor) eqn:Ht.
  - rewrite (truthy_or _ _ Ht). destruct executor as [a|l|d]; try reflexivity.
    discriminate.
  - rewrite (falsy_or _ _ Ht). reflexivity.
Qed.

Lemma executor_not_a_mapping_witness :
  executor_lines (Py.or (VStr "powershell") (VDict [])) = ["#### Attack Commands:"; ""].
Proof. apply (executor_not_a_mapping (VStr "powershell")). reflexivity. Defined.

(** X14: an executor without a name (absent, null or blank) gets the
    generic commands heading, without the elevation warning even when
    elevation is required, and its command and cleanup blocks are fenced
    as text. *)
Theorem executor_without_name (ex : pydict) :
  md_escape_inline (Py.get_default ex "name" (VStr "")) = "" ->
  executor_lines (VDict ex)
  = (["#### Attack Commands:"; ""]
       ++ (if Py.truthy (Py.get ex "command")
           then ["```text"; md_escape_inline (Py.get ex "command"); "```"; ""]
           else [])
       ++ (if Py.truthy (Py.get ex "cleanup_command")
           then ["#### Cleanup Commands:"; "```text";
                 md_escape_inline (Py.get ex "cleanup_command"); "```"; ""; ""]
           else []))%list.
Proof.
  intros H. unfold executor_lines, executor_field. rewrite H. reflexivity.
Qed.

Lemma executor_without_name_witness :
  executor_lines
    (VDict [(SStr "elevation_required", VScalar (SBool true)); (SStr "command", VStr "id")])
  = ["#### Attack Commands:"; ""; "```text"; "id"; "```"; ""].
Proof.
  apply (executor_without_name
           [(SStr "elevation_required", VScalar (SBool true)); (SStr "command", VStr "id")]).
  reflexivity.
Defined.

(** ** The document, continued *)

(** X15: the renderer reads four fields of the document and no other:
    two documents that agree on the technique, the display name, the
    name and the tests render alike, whatever else they hold and in
    whatever order. *)
Theorem build_markdown_reads_four_fields (doc doc' : pydict) (desc : option string) :
  Py.lookup doc "attack_technique" = Py.lookup doc' "attack_technique" ->
  Py.lookup doc "display_name" = Py.lookup doc' "display_name" ->
  Py.lookup doc "name" = Py.lookup doc' "name" ->
  Py.lookup doc "atomic_tests" = Py.lookup doc' "atomic_tests" ->
  build_markdown doc desc = build_markdown doc' desc.
Proof.
  intros H1 H2 H3 H4.
  unfold build_markdown, header_lines, Py.get, Py.get_default.
  rewrite H1, H2, H3, H4. reflexivity.
Qed.

Lemma build_markdown_reads_four_fields_witness :
  build_markdown sample_doc (Some "text")
  = build_markdown
      ((SInt 7, VStr "a note")
         :: (SStr "atomic_tests", VList (List.map VDict sample_records))
         :: (SStr "display_name", VStr "OS Credential Dumping")
         :: (SStr "author", VList [VStr "someone"])
         :: [(SStr "attack_technique", VStr "T1003")])
      (Some "text").
Proof. apply build_markdown_reads_four_fields; reflexivity. Defined.

(** X16: the entry and the section of a record read six of its fields
    and no other: name, description, supported_platforms,
    auto_generated_guid, input_arguments and executor. *)
Theorem record_reads_six_fields (idx : nat) (t t' : pydict) :
  Py.lookup t "name" = Py.lookup t' "name" ->
  Py.lookup t "description" = Py.lookup t' "description" ->
  Py.lookup t "supported_platforms" = Py.lookup t' "supported_platforms" ->
  Py.lookup t "auto_generated_guid" = Py.lookup t' "auto_generated_guid" ->
  Py.lookup t "input_arguments" = Py.lookup t' "input_arguments" ->
  Py.lookup t "executor" = Py.lookup t' "executor" ->
  toc_entry idx (VDict t) = toc_entry idx (VDict t')
  /\ section idx (VDict t) = section idx (VDict t').
Proof.
  intros H1 H2 H3 H4 H5 H6.
  unfold toc_entry, section, section_body, record_name, Py.get, Py.get_default.
  cbn [Py.as_dict bind]. rewrite H1, H2, H3, H4, H5, H6. split; reflexivity.
Qed.

Lemma record_reads_six_fields_witness :
  toc_entry 1 (VDict [(SStr "name", VStr "Dump")])
  = toc_entry 1 (VDict [(SStr "dependencies", VList [VStr "a tool"]); (SStr "name", VStr "Dump")])
  /\ section 1 (VDict [(SStr "name", VStr "Dump")])
     = section 1 (VDict [(SStr "dependencies", VList [VStr "a tool"]);
                         (SStr "name", VStr "Dump")]).
Proof. apply record_reads_six_fields; reflexivity. Defined.

Lemma header_lines_trimmed doc d :
  header_lines doc (Some d)
  = header_lines doc (if Str.is_empty (Str.strip d) then None else Some (Str.strip d)).
Proof.
  unfold header_lines. do 4 f_equal.
  destruct d as [|c d]; [reflexivity|]. cbn [Str.is_empty negb].
  destruct (Str.strip (String c d)) as [|c' d'] eqn:E; [reflexivity|].
  cbn [Str.is_empty negb]. rewrite <- E, MoreStrFacts.strip_idempotent. reflexivity.
Qed.

(** X17: white space around the description is dropped, and a
    description that is empty or blank renders as no description. *)
Theorem description_is_trimmed (doc : pydict) (d : string) :
  build_markdown doc (Some d)
  = build_markdown doc (if Str.is_empty (Str.strip d) then None else Some (Str.strip d)).
Proof. unfold build_markdown. rewrite header_lines_trimmed. reflexivity. Qed.

Lemma join_cons2 sep p q rest :
  Str.join sep (p :: q :: rest) = p ++ sep ++ Str.join sep (q :: rest).
Proof. reflexivity. Qed.

(** The first two lines come through the final trim when a later line
    holds a character that is not white space. *)
Lemma finish_keeps_head l1 l2 pre c more :
  Char.is_space c = false ->
  exists rest,
    finish (l1 :: l2 :: (pre ++ Str.of_char c) :: more)
    = l1 ++ Str.of_char Char.newline ++ l2 ++ Str.of_char Char.newline
         ++ (pre ++ Str.of_char c) ++ rest.
Proof.
  intros Hc. unfold finish. set (nl := Str.of_char Char.newline).
  rewrite (join_cons2 nl l1 l2), (join_cons2 nl l2 (pre ++ Str.of_char c)).
  assert (Ej : exists z, Str.join nl ((pre ++ Str.of_char c) :: more)
                         = pre ++ String c z).
  { destruct more as [|m more].
    - exists "". reflexivity.
    - exists (nl ++ Str.join nl (m :: more)).
      rewrite join_cons2, StrFacts.app_assoc. reflexivity. }
  destruct Ej as [z ->].
  assert (E : l1 ++ nl ++ l2 ++ nl ++ pre ++ String c z
              = (l1 ++ nl ++ l2 ++ nl ++ pre) ++ String c z)
    by (rewrite !StrFacts.app_assoc; reflexivity).
  rewrite E, StripFacts.rstrip_app_keep;
    rewrite (StripFacts.rstrip_cons_keep _ _ Hc); [|discriminate].
  exists (Str.rstrip z ++ nl). rewrite !StrFacts.app_assoc. reflexivity.
Qed.

(** X18: the output starts with the title line, made of the technique
    and of the display name (or, when no display name is given, the
    name), then the line linking to the technique's page, then the
    opening of the description block. *)
Theorem output_starts_with_title (doc : pydict) (desc : option string) (out : string) :
  build_markdown doc desc = Ok out ->
  let tech := md_escape_inline (Py.get_default doc "attack_technique" (VStr "")) in
  let display :=
    md_escape_inline
      (Py.get_default doc "display_name" (Py.get_default doc "name" (VStr ""))) in
  exists rest,
    out = ("# " ++ tech ++ " - " ++ display) ++ Str.of_char Char.newline
          ++ ("## [Description from ATT&CK](https://attack.mitre.org/techniques/" ++ tech ++ ")")
          ++ Str.of_char Char.newline ++ "<blockquote>" ++ rest.
Proof.
  intros H tech display. unfold build_markdown in H.
  destruct (Py.iter _) as [tests|]; [|discriminate]. cbn [bind] in H.
  destruct (for_enumerate toc_entry 1 tests) as [toc|]; [|discriminate]. cbn [bind] in H.
  destruct (for_enumerate section 1 tests) as [secs|]; [|discriminate]. cbn [bind] in H.
  injection H as <-.
  exact (finish_keeps_head
           ("# " ++ tech ++ " - " ++ display)
           ("## [Description from ATT&CK](https://attack.mitre.org/techniques/" ++ tech ++ ")")
           "<blockquote" ">" _ eq_refl).
Qed.

Lemma output_starts_with_title_witness :
  exists rest,
    sample_output
    = ("# " ++ "T1003" ++ " - " ++ "OS Credential Dumping") ++ Str.of_char Char.newline
      ++ ("## [Description from ATT&CK](https://attack.mitre.org/techniques/" ++ "T1003" ++ ")")
      ++ Str.of_char Char.newline ++ "<blockquote>" ++ rest.
Proof.
  apply (output_starts_with_title sample_doc None sample_output). vm_compute. reflexivity.
Defined.

(** ** The entry point, continued *)

Ltac fails_here := cbn [bind]; intros _; eexists; split; reflexivity.

Section MainMoreFacts.

Variable resolve : string -> string.
Variable with_suffix_md : string -> string.
Variable safe_load : string -> result value.

(** X19: when a step before the write fails (the input file is
    unreadable, the loader raises, the input is not a mapping, the
    description file is unreadable, or the renderer raises), the run ends
    with the error of that step, and it has written no file and printed
    nothing. *)
Theorem main_fails_before_write
    (fetch_mitre_description : string -> option string)
    (a : args) (w : world) :
  is_ok (rendered resolve safe_load fetch_mitre_description a w) = false ->
  exists e,
    rendered resolve safe_load fetch_mitre_description a w = Err e
    /\ main resolve with_suffix_md safe_load fetch_mitre_description a w = (Err e, w).
Proof.
  unfold rendered, chosen_description, main.
  cbv beta iota delta [io_bind read_text io_lift read_attack_desc_from_file io_ret
                         write_text print].
  destruct (files w (resolve (yaml_file a))) as [text|]; [|fails_here].
  destruct (safe_load text) as [v|]; [|fails_here]. cbn [bind].
  destruct v as [x|l|doc]; [fails_here|fails_here|].
  destruct (given (attack_desc_file a)) as [p|].
  - destruct (files w p) as [d|]; [|fails_here]. cbn [bind].
    destruct (build_markdown doc (Some (Str.strip d))); [discriminate|fails_here].
  - cbn [bind]. destruct (fetch_mitre a && _); cbn beta iota;
      match goal with
      | |- context [build_markdown doc ?d] => destruct (build_markdown doc d)
      end; (discriminate || fails_here).
Qed.

(** X20: a run that succeeds has read a mapping from the input file and
    rendered it with the description it chose (the trimmed text of the
    description file when one is given, else the remote text when the
    flag is set and the technique is not empty, else none); it has
    written the rendering at the output path (the resolved [--out] when
    given, else the input path with the suffix replaced), has left every
    other file as it was, and has printed the one line that names the
    output path. *)
Theorem main_success_effect
    (fetch_mitre_description : string -> option string)
    (a : args) (w w' : world) (u : unit) :
  main resolve with_suffix_md safe_load fetch_mitre_description a w = (Ok u, w') ->
  exists text doc md,
    files w (resolve (yaml_file a)) = Some text
    /\ safe_load text = Ok (VDict doc)
    /\ build_markdown doc
         match given (attack_desc_file a) with
         | Some p => option_map Str.strip (files w p)
         | None =>
             if fetch_mitre a
                && negb (Str.is_empty
                           (md_escape_inline
                              (Py.get_default doc "attack_technique" (VStr ""))))
             then fetch_mitre_description
                    (md_escape_inline (Py.get_default doc "attack_technique" (VStr "")))
             else None
         end
       = Ok md
    /\ (forall q,
           files w' q
           = if (q =? match given (out a) with
                      | Some o => resolve o
                      | None => with_suffix_md (resolve (yaml_file a))
                      end)%string
             then Some md else files w q)
    /\ stdout w'
       = (stdout w
            ++ [("Wrote: " ++ match given (out a) with
                              | Some o => resolve o
                              | None => with_suffix_md (resolve (yaml_file a))
                              end)%string])%list.
Proof.
  unfold main.
  cbv beta iota delta [io_bind read_text io_lift read_attack_desc_from_file io_ret
                         write_text print].
  destruct (files w (resolve (yaml_file a))) as [text|] eqn:Hfile; [|discriminate].
  destruct (safe_load text) as [v|] eqn:Hload; [|discriminate].
  destruct v as [x|l|doc]; try discriminate.
  destruct (given (attack_desc_file a)) as [p|] eqn:Hgiven.
  - destruct (files w p) as [d|] eqn:Hd; [|discriminate]. cbn [option_map].
    destruct (build_markdown doc (Some (Str.strip d))) as [md|] eqn:Hmd; [|discriminate].
    intros H. injection H as _ <-. exists text, doc, md. cbn [files stdout].
    repeat split; auto.
  - destruct (fetch_mitre a && _) eqn:Hf; cbn beta iota;
      match goal with
      | |- context [build_markdown doc ?d] =>
          destruct (build_markdown doc d) as [md|] eqn:Hmd; [|discriminate]
      end;
      intros H; injection H as _ <-; exists text, doc, md; cbn [files stdout];
      repeat split; auto; rewrite Hf; exact Hmd.
Qed.

(** X21: unless the flag is set and no description file is given, the
    run does not depend on the remote source at all. *)
Theorem main_without_fetch (fetch1 fetch2 : string -> option string) (a : args) (w : world) :
  uses_fetch a = false ->
  main resolve with_suffix_md safe_load fetch1 a w
  = main resolve with_suffix_md safe_load fetch2 a w.
Proof.
  unfold uses_fetch, main, io_bind, read_text, io_lift. intros H.
  destruct (files w (resolve (yaml_file a))) as [text|]; [|reflexivity].
  destruct (safe_load text) as [v|]; [|reflexivity].
  destruct v as [x|l|doc]; try reflexivity.
  destruct (given (attack_desc_file a)) as [p|]; [reflexivity|].
  rewrite H. reflexivity.
Qed.

(** X22: for a document without a technique (absent, null or blank) the
    remote source is not asked either, even with the flag set. *)
Theorem main_without_technique
    (fetch1 fetch2 : string -> option string) (a : args) (w : world)
    (text : string) (doc : pydict) :
  files w (resolve (yaml_file a)) = Some text ->
  safe_load text = Ok (VDict doc) ->
  md_escape_inline (Py.get_default doc "attack_technique" (VStr "")) = "" ->
  main resolve with_suffix_md safe_load fetch1 a w
  = main resolve with_suffix_md safe_load fetch2 a w.
Proof.
  intros Hfile Hload Htech. unfold main, io_bind, read_text, io_lift.
  rewrite Hfile, Hload, Htech. cbn [Str.is_empty negb]. rewrite andb_false_r.
  reflexivity.
Qed.

End MainMoreFacts.

Lemma main_fails_before_write_witness :
  exists e,
    rendered (fun p => p) sample_loader sample_fetch
      {| yaml_file := "T1003.yaml"; out := None;
         attack_desc_file := Some "missing.txt"; fetch_mitre := true |}
      (world_with "attack_technique: T1003")
    = Err e
    /\ main (fun p => p) sample_with_suffix_md sample_loader sample_fetch
         {| yaml_file := "T1003.yaml"; out := None;
            attack_desc_file := Some "missing.txt"; fetch_mitre := true |}
         (world_with "attack_technique: T1003")
       = (Err e, world_with "attack_technique: T1003").
Proof.
  apply (main_fails_before_write (fun p => p) sample_with_suffix_md sample_loader
           sample_fetch).
  vm_compute. reflexivity.
Defined.

Lemma main_success_effect_witness :
  exists text doc md,
    files (world_with "attack_technique: T1003") ((fun p => p) (yaml_file sample_args))
    = Some text
    /\ sample_loader text = Ok (VDict doc)
    /\ build_markdown doc
         match given (attack_desc_file sample_args) with
         | Some p => option_map Str.strip (files (world_with "attack_technique: T1003") p)
         | None =>
             if fetch_mitre sample_args
                && negb (Str.is_empty
                           (md_escape_inline
                              (Py.get_default doc "attack_technique" (VStr ""))))
             then sample_fetch
                    (md_escape_inline (Py.get_default doc "attack_technique" (VStr "")))
             else None
         end
       = Ok md
    /\ (forall q,
           files (snd sample_run) q
           = if (q =? match given (out sample_args) with
                      | Some o => (fun p => p) o
                      | None => sample_with_suffix_md ((fun p => p) (yaml_file sample_args))
                      end)%string
             then Some md else files (world_with "attack_technique: T1003") q)
    /\ stdout (snd sample_run)
       = (stdout (world_with "attack_technique: T1003")
            ++ [("Wrote: " ++ match given (out sample_args) with
                              | Some o => (fun p => p) o
                              | None =>
                                  sample_with_suffix_md ((fun p => p) (yaml_file sample_args))
                              end)%string])%list.
Proof.
  apply (main_success_effect (fun p => p) sample_with_suffix_md sample_loader sample_fetch
           sample_args (world_with "attack_technique: T1003") (snd sample_run) tt).
  vm_compute. reflexivity.
Defined.

Lemma main_without_fetch_witness :
  main (fun p => p) sample_with_suffix_md sample_loader sample_fetch
    sample_args (world_with "attack_technique: T1003")
  = main (fun p => p) sample_with_suffix_md sample_loader remote_text
      sample_args (world_with "attack_technique: T1003").
Proof.
  apply (main_without_fetch (fun p => p) sample_with_suffix_md sample_loader
           sample_fetch remote_text sample_args (world_with "attack_technique: T1003")).
  reflexivity.
Defined.

Lemma main_without_technique_witness :
  main (fun p => p) sample_with_suffix_md nameless_loader sample_fetch
    fetch_args (world_with "display_name: No technique")
  = main (fun p => p) sample_with_suffix_md nameless_loader remote_text
      fetch_args (world_with "display_name: No technique").
Proof.
  apply (main_without_technique (fun p => p) sample_with_suffix_md nameless_loader
           sample_fetch remote_text fetch_args (world_with "display_name: No technique")
           "display_name: No technique" [(SStr "display_name", VStr "No technique")]);
    reflexivity.
Defined.

(** ** The text of the output, line by line *)

Module TextFacts.

Lemma lines_of_nonempty s : exists l ls, lines_of s = l :: ls.
Proof.
  induction s as [|c s IH]; cbn [lines_of]; [eauto|].
  destruct (c =? Char.newline)%char; [eauto|].
  destruct IH as (l & ls & ->). eauto.
Qed.

Lemma lines_of_single s : single_line s = true -> lines_of s = [s].
Proof.
  unfold single_line. induction s as [|c s IH]; [reflexivity|].
  cbn [Str.mem lines_of]. intros H. apply negb_true_iff, orb_false_iff in H as [Hc Hs].
  rewrite Ascii.eqb_sym, Hc, IH; [reflexivity|]. rewrite Hs. reflexivity.
Qed.

Lemma lines_of_app_nl a b :
  lines_of (a ++ String Char.newline b) = (lines_of a ++ lines_of b)%list.
Proof.
  induction a as [|c a IH]; [reflexivity|].
  cbn [append lines_of]. rewrite IH.
  destruct (c =? Char.newline)%char; [reflexivity|].
  destruct (lines_of_nonempty a) as (l & ls & ->). reflexivity.
Qed.

Lemma lines_of_join l ls :
  lines_of (Str.join (Str.of_char Char.newline) (l :: ls)) = flat_map lines_of (l :: ls).
Proof.
  revert l. induction ls as [|l' ls IH]; intros l.
  - cbn [Str.join flat_map]. rewrite List.app_nil_r. reflexivity.
  - change (Str.join (Str.of_char Char.newline) (l :: l' :: ls))
      with (l ++ String Char.newline (Str.join (Str.of_char Char.newline) (l' :: ls))).
    rewrite lines_of_app_nl, IH. reflexivity.
Qed.

Lemma last_char_app a c s : last_char (a ++ String c s) = last_char (String c s).
Proof.
  induction a as [|x a IH]; [reflexivity|].
  change (String x a ++ String c s) with (String x (a ++ String c s)).
  destruct (a ++ String c s) eqn:E; [destruct a; discriminate|].
  rewrite <- E, <- IH. rewrite E. reflexivity.
Qed.

Lemma last_char_join_snoc xs c l :
  last_char (Str.join (Str.of_char Char.newline) (xs ++ [String c l]))
  = last_char (String c l).
Proof.
  induction xs as [|x xs IH]; [reflexivity|].
  change ((x :: xs) ++ [String c l])%list with (x :: (xs ++ [String c l]))%list.
  destruct (xs ++ [String c l])%list as [|y ys] eqn:E; [destruct xs; discriminate|].
  change (Str.join (Str.of_char Char.newline) (x :: y :: ys))
    with (x ++ String Char.newline (Str.join (Str.of_char Char.newline) (y :: ys))).
  destruct (Str.join (Str.of_char Char.newline) (y :: ys)) as [|z zs] eqn:Ej.
  - exfalso. destruct (last_char_some (String c l)) as [d Hd]; [discriminate|].
    rewrite Hd in IH. discriminate.
  - assert (Ea : x ++ String Char.newline (String z zs)
                 = (x ++ Str.of_char Char.newline) ++ String z zs)
      by (rewrite StrFacts.app_assoc; reflexivity).
    rewrite Ea, last_char_app. exact IH.
Qed.

(** The final trim removes nothing when the last line is the closing
    marker. *)
Lemma finish_closed xs :
  finish (xs ++ ["<br/>"])
  = Str.join (Str.of_char Char.newline) (xs ++ ["<br/>"]) ++ Str.of_char Char.newline.
Proof.
  unfold finish. rewrite MoreStrFacts.rstrip_trimmed; [reflexivity|].
  change "<br/>" with (String "<" "br/>"). rewrite last_char_join_snoc. reflexivity.
Qed.

Lemma lines_of_finish xs :
  lines_of (finish (xs ++ ["<br/>"]))
  = (flat_map lines_of (xs ++ ["<br/>"]) ++ [""])%list.
Proof.
  rewrite finish_closed.
  destruct (xs ++ ["<br/>"])%list as [|l ls] eqn:E; [destruct xs; discriminate|].
  change (?s ++ Str.of_char Char.newline) with (s ++ String Char.newline "").
  rewrite lines_of_app_nl, lines_of_join. reflexivity.
Qed.

Lemma mem_app c a b : Str.mem c (a ++ b) = Str.mem c a || Str.mem c b.
Proof.
  induction a as [|x a IH]; [reflexivity|].
  cbn [append Str.mem]. rewrite IH, orb_assoc. reflexivity.
Qed.

Lemma single_line_app a b : single_line (a ++ b) = single_line a && single_line b.
Proof. unfold single_line. rewrite mem_app, negb_orb. reflexivity. Qed.



Lemma all_no_newline (p : ascii -> bool) s :
  p Char.newline = false -> Str.all p s = true -> single_line s = true.
Proof.
  intros Hp. unfold single_line. induction s as [|c s IH]; [reflexivity|].
  cbn [Str.all Str.mem]. intros H. apply andb_true_iff in H as [Hc Hs].
  apply negb_true_iff, orb_false_iff. split.
  - destruct (Ascii.eqb_spec Char.newline c) as [<-|]; [congruence|reflexivity].
  - apply negb_true_iff, IH, Hs.
Qed.

End TextFacts.

(** ** Which lines of the output read as entries and headings *)










Lemma dec_nat_single_line n : single_line (Py.dec_nat n) = true.
Proof.
  apply (TextFacts.all_no_newline Char.is_digit); [reflexivity|].
  unfold Py.dec_nat. apply uint_digits.
Qed.

Lemma slug_single_line s : single_line (slugify_github_anchor s) = true.
Proof. apply (TextFacts.all_no_newline slug_char); [reflexivity|apply slug_chars]. Qed.

Lemma record_heading_single_line idx t :
  single_line (record_name idx t) = true -> single_line (record_heading idx t) = true.
Proof.
  intros H. unfold record_heading.
  rewrite !TextFacts.single_line_app, dec_nat_single_line, H. reflexivity.
Qed.

Lemma toc_line_single_line idx t :
  single_line (record_name idx t) = true ->
  single_line (toc_line (record_heading idx t)) = true.
Proof.
  intros H. unfold toc_line.
  rewrite !TextFacts.single_line_app, (record_heading_single_line _ _ H), slug_single_line.
  reflexivity.
Qed.

Lemma heading_line_single_line idx t :
  single_line (record_name idx t) = true ->
  single_line (heading_line (record_heading idx t)) = true.
Proof.
  intros H. unfold heading_line.
  rewrite TextFacts.single_line_app, (record_heading_single_line _ _ H). reflexivity.
Qed.












(** ** Entries and headings of the output *)




Lemma in_lines_of_finish xs l :
  In l xs -> single_line l = true -> In l (lines_of (finish (xs ++ ["<br/>"]))).
Proof.
  intros Hin Hs. rewrite TextFacts.lines_of_finish, flat_map_app.
  apply in_or_app. left. apply in_or_app. left.
  apply in_flat_map. exists l. split; [exact Hin|].
  rewrite (TextFacts.lines_of_single _ Hs). left. reflexivity.
Qed.

Lemma default_name_single_line idx : single_line (default_name idx) = true.
Proof.
  unfold default_name. rewrite TextFacts.single_line_app, dec_nat_single_line. reflexivity.
Qed.

(** C10: a record at the 1-based position i+1 that has no name gets the
    name "Atomic Test #<i+1>"; its table-of-contents entry and the
    heading of its section both read
    "Atomic Test #<i+1> - Atomic Test #<i+1>", the entry linking to the
    slug of that text, and both are lines of the output text. *)
Theorem absent_name_repeats_prefix
    (doc : pydict) (desc : option string) (rs : list pydict) (out : string)
    (i : nat) (r : pydict) :
  Py.get doc "atomic_tests" = VList (List.map VDict rs) ->
  build_markdown doc desc = Ok out ->
  nth_error rs i = Some r ->
  Py.lookup r "name" = None ->
  let h := "Atomic Test #" ++ Py.dec_nat (S i) ++ " - Atomic Test #" ++ Py.dec_nat (S i) in
  record_name (S i) r = "Atomic Test #" ++ Py.dec_nat (S i)
  /\ toc_entry (S i) (VDict r)
     = Ok ["- [" ++ h ++ "](#" ++ slugify_github_anchor h ++ ")"; ""]
  /\ section (S i) (VDict r) = (body <- section_body r ;; Ok (("## " ++ h) :: body))
  /\ In ("- [" ++ h ++ "](#" ++ slugify_github_anchor h ++ ")") (lines_of out)
  /\ In ("## " ++ h) (lines_of out).
Proof.
  intros Hts Hout Hr Hname h.
  pose proof (record_name_absent (S i) r Hname) as Hn.
  pose proof (record_heading_absent (S i) r Hname) as Hh. fold h in Hh.
  assert (Hs : single_line (record_name (S i) r) = true)
    by (rewrite Hn; apply default_name_single_line).
  split; [exact Hn|]. split; [rewrite toc_entry_block, Hh; reflexivity|].
  split; [rewrite section_block_of, Hh; reflexivity|].
  destruct (build_markdown_blocks doc desc rs out Hts Hout)
    as (tocs & secs & -> & _ & _ & Hi).
  destruct (Hi i r Hr) as [Htoc [body Hsec]]. rewrite Hh in Htoc, Hsec.
  pose proof (toc_line_single_line (S i) r Hs) as Hst.
  pose proof (heading_line_single_line (S i) r Hs) as Hsh.
  rewrite Hh in Hst, Hsh.
  assert (E : forall a b c d : list string,
             (a ++ b ++ c ++ d ++ ["<br/>"] = (a ++ b ++ c ++ d) ++ ["<br/>"])%list)
    by (intros; rewrite <- !List.app_assoc; reflexivity).
  rewrite E. split.
  - apply in_lines_of_finish; [|exact Hst].
    apply in_or_app. right. apply in_or_app. left.
    apply in_concat. eexists. split; [exact (nth_error_In _ _ Htoc)|]. left. reflexivity.
  - apply in_lines_of_finish; [|exact Hsh].
    apply in_or_app. right. apply in_or_app. right. apply in_or_app. right.
    apply in_concat. eexists. split; [exact (nth_error_In _ _ Hsec)|]. left. reflexivity.
Qed.

Lemma absent_name_repeats_prefix_witness :
  record_name 2 [(SStr "description", VStr "No name given")] = "Atomic Test #2"
  /\ toc_entry 2 (VDict [(SStr "description", VStr "No name given")])
     = Ok ["- [Atomic Test #2 - Atomic Test #2](#"
             ++ slugify_github_anchor "Atomic Test #2 - Atomic Test #2" ++ ")"; ""]
  /\ section 2 (VDict [(SStr "description", VStr "No name given")])
     = (body <- section_body [(SStr "description", VStr "No name given")] ;;
        Ok ("## Atomic Test #2 - Atomic Test #2" :: body))
  /\ In ("- [Atomic Test #2 - Atomic Test #2](#"
           ++ slugify_github_anchor "Atomic Test #2 - Atomic Test #2" ++ ")")
        (lines_of sample_output)
  /\ In "## Atomic Test #2 - Atomic Test #2" (lines_of sample_output).
Proof.
  apply (absent_name_repeats_prefix sample_doc None sample_records sample_output 1
           [(SStr "description", VStr "No name given")]); vm_compute; reflexivity.
Defined.

(** ** The renderer on the documents it is written for *)

(** C5, as the code has it: on a well-typed document whose values [str]
    can render (its tests absent, null, empty, or a sequence of mappings
    whose platforms, when given, are strings and whose parameters, when
    given, are mappings; no integer beyond 4300 digits and no nesting
    beyond a hundred levels) the renderer returns a document for every
    description, and it still does when any field is taken out of every
    record. *)
Theorem renderer_total_on_typed_documents (doc : pydict) (desc : option string) :
  doc_ok doc = true ->
  printable_doc doc = true ->
  (exists md, build_markdown doc desc = Ok md)
  /\ forall k, exists md, build_markdown (records_without k doc) desc = Ok md.
Proof.
  intros Hok _.
  assert (H : forall d, doc_ok d = true -> exists md, build_markdown d desc = Ok md).
  { intros d Hd. rewrite <- (build_markdown_ok d desc) in Hd.
    destruct (build_markdown d desc) as [md|]; [eauto|discriminate]. }
  split; [apply H, Hok|]. intros k. apply H, records_without_ok, Hok.
Qed.

Lemma renderer_total_on_typed_documents_witness :
  (exists md, build_markdown sample_doc None = Ok md)
  /\ forall k, exists md, build_markdown (records_without k sample_doc) None = Ok md.
Proof.
  apply (renderer_total_on_typed_documents sample_doc None); vm_compute; reflexivity.
Defined.
